(** * AppMesh gateway route specifications and TLS validation trusts

    A shallow embedding of [gateway-route-spec.ts] and [tls-validation.ts]
    of the [@aws-cdk/aws-appmesh] package.

    Every TypeScript class with a [bind] method becomes an inductive type
    with one constructor per implementation class, and its [bind] becomes a
    function.  Optional properties ([x?: T]) are [option T]; a key that is
    left out of an object literal and a key bound to [undefined] are both
    [None].  [throw new Error(msg)] is [Throw msg]. *)

From Stdlib Require Import String Ascii List Bool.
Import ListNotations.
Local Open Scope string_scope.

(** ** External collaborators

    Types and accessors that the two files import from modules that are
    not part of this development: the construct tree, the HTTP header
    matcher of [route-spec.ts], virtual services and ACM PCA certificate
    authorities.  They are only ever passed through. *)
Class Environment := {
  (** [Construct] of [@aws-cdk/core]: the binding scope. *)
  Construct : Type;
  (** JavaScript numbers, carried unchanged (metadata range bounds). *)
  number : Type;
  (** [HttpHeaderMatch] of [./route-spec]. *)
  HttpHeaderMatch : Type;
  (** [CfnGatewayRoute.HttpGatewayRouteHeaderProperty]. *)
  HttpRouteHeaderProperty : Type;
  (** [header.bind(scope).httpRouteHeader]. *)
  httpRouteHeader : HttpHeaderMatch -> Construct -> HttpRouteHeaderProperty;
  (** [IVirtualService] of [./virtual-service]. *)
  IVirtualService : Type;
  virtualServiceName : IVirtualService -> string;
  (** [acmpca.ICertificateAuthority]. *)
  ICertificateAuthority : Type;
  certificateAuthorityArn : ICertificateAuthority -> string
}.

(** A concrete environment on which the definitions can be run. *)
Definition sampleEnvironment : Environment := {|
  Construct := unit;
  number := nat;
  HttpHeaderMatch := string;
  HttpRouteHeaderProperty := string;
  httpRouteHeader := fun header _ => header;
  IVirtualService := string;
  virtualServiceName := fun service => service;
  ICertificateAuthority := string;
  certificateAuthorityArn := fun authority => authority
|}.

Definition sampleScope : @Construct sampleEnvironment := tt.

Definition sampleTarget : @IVirtualService sampleEnvironment := "orders.mesh.local".

Definition sampleAuthority : @ICertificateAuthority sampleEnvironment :=
  "arn:aws:acm-pca:us-east-1:123456789012:certificate-authority/ca-1".

(** ** Results of [bind] *)

Inductive result (A : Type) : Type :=
| Return (value : A)
| Throw (message : string).

Arguments Return {A} value.
Arguments Throw {A} message.

Definition result_bind {A B : Type} (r : result A) (k : A -> result B) : result B :=
  match r with
  | Return a => k a
  | Throw message => Throw message
  end.

(** [if (c) { throw new Error(message); }] *)
Definition throwIf (c : bool) (message : string) : result unit :=
  if c then Throw message else Return tt.

Notation "c1 ;;; c2" := (result_bind c1 (fun _ => c2))
  (at level 61, right associativity).

(** ** JavaScript expressions used by the source *)

(** Truthiness of a [string | undefined]: defined and not empty. *)
Definition truthy (s : option string) : bool :=
  match s with
  | Some (String _ _) => true
  | Some EmptyString => false
  | None => false
  end.

(** Truthiness of an [object | undefined]: every object is truthy. *)
Definition defined {A : Type} (o : option A) : bool :=
  match o with
  | Some _ => true
  | None => false
  end.

(** [s[0] != c] on a string [s]. *)
Definition firstCharIsNot (s : string) (c : ascii) : bool :=
  match String.get 0 s with
  | Some c0 => negb (Ascii.eqb c0 c)
  | None => true
  end.

(** [o?.f] where [f] is an optional property. *)
Definition chain {A B : Type} (o : option A) (f : A -> option B) : option B :=
  match o with
  | Some a => f a
  | None => None
  end.

(** The three error messages of [HttpGatewayRouteSpec.bind] and the one of
    [TlsValidationAcmTrust.bind]. *)
Definition InvalidPrefixFormat (prefixPath : string) : string :=
  "Prefix Path must start with '/', got: " ++ prefixPath.

Definition PrefixRewriteRequiresPrefixMatch : string :=
  "HTTP Gateway Route Prefix Match must be set.".

Definition PathRewriteConflictsWithPrefixMatch : string :=
  "HTTP Gateway Route Prefix Match and Path Rewrite both cannot be set.".

Definition MissingCertificateAuthority : string :=
  "you must provide at least one Certificate Authority when creating an ACM Trust ClientPolicy".

Section GatewayRoute.
Context {env : Environment}.

(** ** Host name matching *)

(** [CfnGatewayRoute.GatewayRouteHostnameMatchProperty] *)
Record GatewayRouteHostnameMatchProperty := {
  hostnameExact : option string;
  hostnameSuffix : option string
}.

Record GatewayRouteHostnameMatchConfig := {
  hostnameMatch : GatewayRouteHostnameMatchProperty
}.

Inductive GatewayRouteHostname :=
| GatewayRouteHostnameImpl (matchProperty : GatewayRouteHostnameMatchProperty).

Definition GatewayRouteHostname_matchingExactly (name : string) : GatewayRouteHostname :=
  GatewayRouteHostnameImpl {| hostnameExact := Some name; hostnameSuffix := None |}.

Definition GatewayRouteHostname_matchingSuffix (suffix : string) : GatewayRouteHostname :=
  GatewayRouteHostnameImpl {| hostnameExact := None; hostnameSuffix := Some suffix |}.

Definition GatewayRouteHostname_bind (this : GatewayRouteHostname) (_scope : Construct)
  : GatewayRouteHostnameMatchConfig :=
  match this with
  | GatewayRouteHostnameImpl matchProperty => {| hostnameMatch := matchProperty |}
  end.

(** ** gRPC metadata matching *)

Record MatchRangeProperty := {
  rangeStart : number;
  rangeEnd : number
}.

(** [CfnGatewayRoute.GatewayRouteMetadataMatchProperty] *)
Record GatewayRouteMetadataMatchProperty := {
  metadataExact : option string;
  metadataPrefix : option string;
  metadataSuffix : option string;
  metadataRegex : option string;
  metadataRange : option MatchRangeProperty
}.

(** [CfnGatewayRoute.GrpcGatewayRouteMetadataProperty] *)
Record GrpcGatewayRouteMetadataProperty := {
  metadataName : string;
  metadataInvert : bool;
  metadataMatchProperty : GatewayRouteMetadataMatchProperty
}.

Record GrpcGatewayRouteMetadataMatchConfig := {
  metadataMatch : GrpcGatewayRouteMetadataProperty
}.

Inductive GrpcMetadataMatch :=
| MetadataMatchImpl (metadataName : string) (invert : bool)
    (matchProperty : GatewayRouteMetadataMatchProperty).

Definition GrpcMetadataMatch_valueIs (metadataName metadataValue : string) :=
  MetadataMatchImpl metadataName false
    {| metadataExact := Some metadataValue; metadataPrefix := None;
       metadataSuffix := None; metadataRegex := None; metadataRange := None |}.

Definition GrpcMetadataMatch_valueIsNot (metadataName metadataValue : string) :=
  MetadataMatchImpl metadataName true
    {| metadataExact := Some metadataValue; metadataPrefix := None;
       metadataSuffix := None; metadataRegex := None; metadataRange := None |}.

Definition GrpcMetadataMatch_valueStartsWith (metadataName prefix : string) :=
  MetadataMatchImpl metadataName false
    {| metadataExact := None; metadataPrefix := Some prefix;
       metadataSuffix := None; metadataRegex := None; metadataRange := None |}.

Definition GrpcMetadataMatch_valueDoesNotStartWith (metadataName prefix : string) :=
  MetadataMatchImpl metadataName true
    {| metadataExact := None; metadataPrefix := Some prefix;
       metadataSuffix := None; metadataRegex := None; metadataRange := None |}.

Definition GrpcMetadataMatch_valueEndsWith (metadataName suffix : string) :=
  MetadataMatchImpl metadataName false
    {| metadataExact := None; metadataPrefix := None;
       metadataSuffix := Some suffix; metadataRegex := None; metadataRange := None |}.

Definition GrpcMetadataMatch_valueDoesNotEndWith (metadataName suffix : string) :=
  MetadataMatchImpl metadataName true
    {| metadataExact := None; metadataPrefix := None;
       metadataSuffix := Some suffix; metadataRegex := None; metadataRange := None |}.

Definition GrpcMetadataMatch_valueMatchesRegex (metadataName regex : string) :=
  MetadataMatchImpl metadataName false
    {| metadataExact := None; metadataPrefix := None;
       metadataSuffix := None; metadataRegex := Some regex; metadataRange := None |}.

Definition GrpcMetadataMatch_valueDoesNotMatchRegex (metadataName regex : string) :=
  MetadataMatchImpl metadataName true
    {| metadataExact := None; metadataPrefix := None;
       metadataSuffix := None; metadataRegex := Some regex; metadataRange := None |}.

Definition GrpcMetadataMatch_valuesIsInRange (metadataName : string) (start end_ : number) :=
  MetadataMatchImpl metadataName false
    {| metadataExact := None; metadataPrefix := None; metadataSuffix := None;
       metadataRegex := None;
       metadataRange := Some {| rangeStart := start; rangeEnd := end_ |} |}.

Definition GrpcMetadataMatch_valuesIsNotInRange (metadataName : string) (start end_ : number) :=
  MetadataMatchImpl metadataName true
    {| metadataExact := None; metadataPrefix := None; metadataSuffix := None;
       metadataRegex := None;
       metadataRange := Some {| rangeStart := start; rangeEnd := end_ |} |}.

Definition GrpcMetadataMatch_bind (this : GrpcMetadataMatch) (_scope : Construct)
  : GrpcGatewayRouteMetadataMatchConfig :=
  match this with
  | MetadataMatchImpl name invert matchProperty =>
      {| metadataMatch :=
           {| metadataName := name;
              metadataInvert := invert;
              metadataMatchProperty := matchProperty |} |}
  end.

(** ** HTTP path matching *)

(** [CfnGatewayRoute.HttpPathMatchProperty] *)
Record HttpPathMatchProperty := {
  pathExact : option string;
  pathRegex : option string
}.

Record HttpPathMatchConfig := {
  pathMatch : HttpPathMatchProperty
}.

Inductive HttpPathMatch :=
| HttpPathMatchImpl (pathMatch : HttpPathMatchProperty).

Definition HttpPathMatch_matchingExactly (path : string) : HttpPathMatch :=
  HttpPathMatchImpl {| pathExact := Some path; pathRegex := None |}.

Definition HttpPathMatch_matchingRegex (regex : string) : HttpPathMatch :=
  HttpPathMatchImpl {| pathExact := None; pathRegex := Some regex |}.

Definition HttpPathMatch_bind (this : HttpPathMatch) (_scope : Construct)
  : HttpPathMatchConfig :=
  match this with
  | HttpPathMatchImpl pathMatch => {| pathMatch := pathMatch |}
  end.

(** ** Query parameter matching *)

(** [CfnGatewayRoute.HttpQueryParameterMatchProperty] *)
Record HttpQueryParameterMatchProperty := {
  queryExact : option string
}.

(** [CfnGatewayRoute.QueryParameterProperty] *)
Record QueryParameterProperty := {
  queryMatch : HttpQueryParameterMatchProperty;
  queryName : string
}.

Record QueryParameterConfig := {
  queryParameter : QueryParameterProperty
}.

Inductive QueryParameterMatch :=
| QueryParameterMatchImpl (queryParameterName : string)
    (matchProperty : HttpQueryParameterMatchProperty).

Definition QueryParameterMatch_valueIs (queryParameterName queryParameterValue : string) :=
  QueryParameterMatchImpl queryParameterName {| queryExact := Some queryParameterValue |}.

Definition QueryParameterMatch_bind (this : QueryParameterMatch) (_scope : Construct)
  : QueryParameterConfig :=
  match this with
  | QueryParameterMatchImpl queryParameterName matchProperty =>
      {| queryParameter :=
           {| queryMatch := matchProperty; queryName := queryParameterName |} |}
  end.

Inductive Method := GET | PUT | POST | DELETE.

(** ** HTTP gateway route match *)

(** [CfnGatewayRoute.HttpGatewayRouteMatchProperty] *)
Record HttpGatewayRouteMatchProperty := {
  prefix : option string;
  path : option HttpPathMatchProperty;
  headers : option (list HttpRouteHeaderProperty);
  hostname : option GatewayRouteHostnameMatchProperty;
  method : option Method;
  queryParameters : option (list QueryParameterProperty)
}.

Record HttpGatewayRouteMatchConfig := {
  requestMatch : HttpGatewayRouteMatchProperty
}.

(** The criterion for determining path or prefix request match. *)
Inductive HttpGatewayRoutePathOrPrefixMatch :=
| HttpGatewayRoutePrefixMatchImpl (prefix : string)
| HttpGatewayRoutePathMatchImpl (pathMatch : HttpPathMatch).

Definition HttpGatewayRoutePathOrPrefixMatch_prefix (path : string) :=
  HttpGatewayRoutePrefixMatchImpl path.

Definition HttpGatewayRoutePathOrPrefixMatch_path (pathMatch : HttpPathMatch) :=
  HttpGatewayRoutePathMatchImpl pathMatch.

Definition HttpGatewayRoutePathOrPrefixMatch_bind
  (this : HttpGatewayRoutePathOrPrefixMatch) (scope : Construct)
  : HttpGatewayRouteMatchConfig :=
  match this with
  | HttpGatewayRoutePrefixMatchImpl prefix =>
      {| requestMatch :=
           {| prefix := Some prefix; path := None; headers := None;
              hostname := None; method := None; queryParameters := None |} |}
  | HttpGatewayRoutePathMatchImpl pathMatch0 =>
      {| requestMatch :=
           {| prefix := None;
              path := Some (pathMatch (HttpPathMatch_bind pathMatch0 scope));
              headers := None; hostname := None; method := None;
              queryParameters := None |} |}
  end.

Record HttpGatewayRoutePrefixMatchOptions := {
  prefixOptHeaders : option (list HttpHeaderMatch);
  prefixOptHostname : option GatewayRouteHostname;
  prefixOptMethod : option Method;
  prefixOptQueryParameters : option (list QueryParameterMatch)
}.

Record HttpGatewayRouteHeaderMatchOptions := {
  headerOptHostname : option GatewayRouteHostname;
  headerOptMethod : option Method;
  headerOptQueryParameters : option (list QueryParameterMatch);
  headerOptPrefixOrPath : option HttpGatewayRoutePathOrPrefixMatch
}.

Record HttpGatewayRouteHostnameMatchOptions := {
  hostnameOptHeaders : option (list HttpHeaderMatch);
  hostnameOptMethod : option Method;
  hostnameOptQueryParameters : option (list QueryParameterMatch);
  hostnameOptPrefixOrPath : option HttpGatewayRoutePathOrPrefixMatch
}.

Record HttpGatewayRouteMethodMatchOptions := {
  methodOptHeaders : option (list HttpHeaderMatch);
  methodOptHostname : option GatewayRouteHostname;
  methodOptQueryParameters : option (list QueryParameterMatch);
  methodOptPrefixOrPath : option HttpGatewayRoutePathOrPrefixMatch
}.

Record HttpGatewayRoutePathMatchOptions := {
  pathOptHeaders : option (list HttpHeaderMatch);
  pathOptMethod : option Method;
  pathOptHostname : option GatewayRouteHostname;
  pathOptQueryParameters : option (list QueryParameterMatch)
}.

Record HttpGatewayRouteQueryParameterMatchOptions := {
  queryOptHeaders : option (list HttpHeaderMatch);
  queryOptHostname : option GatewayRouteHostname;
  queryOptMethod : option Method;
  queryOptPrefixOrPath : option HttpGatewayRoutePathOrPrefixMatch
}.

(** The criterion for determining a request match: one constructor per
    implementation class.  [options] is optional for the prefix and header
    classes only. *)
Inductive HttpGatewayRouteMatch :=
| HttpGatewayRoutePrefixMatch (prefix : string)
    (options : option HttpGatewayRoutePrefixMatchOptions)
| HttpGatewayRouteHeaderMatch (header : list HttpHeaderMatch)
    (options : option HttpGatewayRouteHeaderMatchOptions)
| HttpGatewayRouteHostnameMatch (hostname : GatewayRouteHostname)
    (options : HttpGatewayRouteHostnameMatchOptions)
| HttpGatewayRouteMethodMatch (method : Method)
    (options : HttpGatewayRouteMethodMatchOptions)
| HttpGatewayRoutePathMatch (pathMatch : HttpPathMatch)
    (options : HttpGatewayRoutePathMatchOptions)
| HttpGatewayRouteQueryParameterMatch (queryParameter : list QueryParameterMatch)
    (options : HttpGatewayRouteQueryParameterMatchOptions).

Definition HttpGatewayRouteMatch_prefix := HttpGatewayRoutePrefixMatch.
Definition HttpGatewayRouteMatch_header := HttpGatewayRouteHeaderMatch.
Definition HttpGatewayRouteMatch_hostname := HttpGatewayRouteHostnameMatch.
Definition HttpGatewayRouteMatch_method := HttpGatewayRouteMethodMatch.
Definition HttpGatewayRouteMatch_path := HttpGatewayRoutePathMatch.
Definition HttpGatewayRouteMatch_queryParameters := HttpGatewayRouteQueryParameterMatch.

(** [headers.map(header => header.bind(scope).httpRouteHeader)] *)
Definition bindHeaders (scope : Construct) (headers : list HttpHeaderMatch) :=
  map (fun header => httpRouteHeader header scope) headers.

(** [hostname.bind(scope).hostnameMatch] *)
Definition bindHostname (scope : Construct) (hostname : GatewayRouteHostname) :=
  hostnameMatch (GatewayRouteHostname_bind hostname scope).

(** [queryParameters.map(queryParameter => queryParameter.bind(scope).queryParameter)] *)
Definition bindQueryParameters (scope : Construct) (qs : list QueryParameterMatch) :=
  map (fun q => queryParameter (QueryParameterMatch_bind q scope)) qs.

(** [prefixOrPath?.bind(scope).requestMatch.path] *)
Definition boundPath (scope : Construct) (prefixOrPath : option HttpGatewayRoutePathOrPrefixMatch) :=
  chain prefixOrPath
    (fun m => path (requestMatch (HttpGatewayRoutePathOrPrefixMatch_bind m scope))).

(** [prefixOrPath?.bind(scope).requestMatch.prefix] *)
Definition boundPrefix (scope : Construct) (prefixOrPath : option HttpGatewayRoutePathOrPrefixMatch) :=
  chain prefixOrPath
    (fun m => prefix (requestMatch (HttpGatewayRoutePathOrPrefixMatch_bind m scope))).

Definition HttpGatewayRouteMatch_bind (this : HttpGatewayRouteMatch) (scope : Construct)
  : HttpGatewayRouteMatchConfig :=
  match this with
  | HttpGatewayRoutePrefixMatch prefix0 options =>
      {| requestMatch :=
           {| prefix := Some prefix0;
              headers := option_map (bindHeaders scope) (chain options prefixOptHeaders);
              hostname := option_map (bindHostname scope) (chain options prefixOptHostname);
              method := chain options prefixOptMethod;
              queryParameters :=
                option_map (bindQueryParameters scope) (chain options prefixOptQueryParameters);
              path := None |} |}
  | HttpGatewayRouteHeaderMatch header options =>
      {| requestMatch :=
           {| headers := Some (bindHeaders scope header);
              hostname := option_map (bindHostname scope) (chain options headerOptHostname);
              method := chain options headerOptMethod;
              queryParameters :=
                option_map (bindQueryParameters scope) (chain options headerOptQueryParameters);
              path := boundPath scope (chain options headerOptPrefixOrPath);
              prefix := boundPrefix scope (chain options headerOptPrefixOrPath) |} |}
  | HttpGatewayRouteHostnameMatch hostname0 options =>
      {| requestMatch :=
           {| hostname := Some (bindHostname scope hostname0);
              headers := option_map (bindHeaders scope) (hostnameOptHeaders options);
              method := hostnameOptMethod options;
              queryParameters :=
                option_map (bindQueryParameters scope) (hostnameOptQueryParameters options);
              path := boundPath scope (hostnameOptPrefixOrPath options);
              prefix := boundPrefix scope (hostnameOptPrefixOrPath options) |} |}
  | HttpGatewayRouteMethodMatch method0 options =>
      {| requestMatch :=
           {| method := Some method0;
              hostname := option_map (bindHostname scope) (methodOptHostname options);
              headers := option_map (bindHeaders scope) (methodOptHeaders options);
              queryParameters :=
                option_map (bindQueryParameters scope) (methodOptQueryParameters options);
              path := boundPath scope (methodOptPrefixOrPath options);
              prefix := boundPrefix scope (methodOptPrefixOrPath options) |} |}
  | HttpGatewayRoutePathMatch pathMatch0 options =>
      {| requestMatch :=
           {| path := Some (pathMatch (HttpPathMatch_bind pathMatch0 scope));
              hostname := option_map (bindHostname scope) (pathOptHostname options);
              headers := option_map (bindHeaders scope) (pathOptHeaders options);
              method := pathOptMethod options;
              queryParameters :=
                option_map (bindQueryParameters scope) (pathOptQueryParameters options);
              prefix := None |} |}
  | HttpGatewayRouteQueryParameterMatch queryParameter0 options =>
      {| requestMatch :=
           {| queryParameters := Some (bindQueryParameters scope queryParameter0);
              hostname := option_map (bindHostname scope) (queryOptHostname options);
              headers := option_map (bindHeaders scope) (queryOptHeaders options);
              method := queryOptMethod options;
              path := boundPath scope (queryOptPrefixOrPath options);
              prefix := boundPrefix scope (queryOptPrefixOrPath options) |} |}
  end.

(** ** gRPC gateway route match *)

(** [CfnGatewayRoute.GrpcGatewayRouteMatchProperty] *)
Record GrpcGatewayRouteMatchProperty := {
  grpcHostname : option GatewayRouteHostnameMatchProperty;
  grpcMetadata : option (list GrpcGatewayRouteMetadataProperty);
  grpcServiceName : option string
}.

Record GrpcGatewayRouteMatchConfig := {
  grpcRequestMatch : GrpcGatewayRouteMatchProperty
}.

Record GrpcGatewayRouteHostnameMatchOptions := {
  grpcHostnameOptMetadata : option (list GrpcMetadataMatch);
  grpcHostnameOptServiceName : option string
}.

Record GrpcGatewayRouteMetadataMatchOptions := {
  grpcMetadataOptHostname : option GatewayRouteHostname;
  grpcMetadataOptServiceName : option string
}.

Record GrpcGatewayRouteServiceNameMatchOptions := {
  grpcServiceNameOptHostname : option GatewayRouteHostname;
  grpcServiceNameOptMetadata : option (list GrpcMetadataMatch)
}.

Inductive GrpcGatewayRouteMatch :=
| GrpcGatewayRouteHostnameMatchImpl (hostname : GatewayRouteHostname)
    (options : option GrpcGatewayRouteHostnameMatchOptions)
| GrpcGatewayRouteMetadataMatchImpl (metadata : list GrpcMetadataMatch)
    (options : option GrpcGatewayRouteMetadataMatchOptions)
| GrpcGatewayRouteServicenameMatchImpl (serviceName : string)
    (options : option GrpcGatewayRouteServiceNameMatchOptions).

Definition GrpcGatewayRouteMatch_hostname := GrpcGatewayRouteHostnameMatchImpl.
Definition GrpcGatewayRouteMatch_metadata := GrpcGatewayRouteMetadataMatchImpl.
Definition GrpcGatewayRouteMatch_serviceName := GrpcGatewayRouteServicenameMatchImpl.

(** [metadata.map(metadata => metadata.bind(scope).metadataMatch)] *)
Definition bindMetadata (scope : Construct) (ms : list GrpcMetadataMatch) :=
  map (fun m => metadataMatch (GrpcMetadataMatch_bind m scope)) ms.

Definition GrpcGatewayRouteMatch_bind (this : GrpcGatewayRouteMatch) (scope : Construct)
  : GrpcGatewayRouteMatchConfig :=
  match this with
  | GrpcGatewayRouteHostnameMatchImpl hostname0 options =>
      {| grpcRequestMatch :=
           {| grpcHostname := Some (bindHostname scope hostname0);
              grpcMetadata :=
                option_map (bindMetadata scope) (chain options grpcHostnameOptMetadata);
              grpcServiceName := chain options grpcHostnameOptServiceName |} |}
  | GrpcGatewayRouteMetadataMatchImpl metadata options =>
      {| grpcRequestMatch :=
           {| grpcMetadata := Some (bindMetadata scope metadata);
              grpcHostname :=
                option_map (bindHostname scope) (chain options grpcMetadataOptHostname);
              grpcServiceName := chain options grpcMetadataOptServiceName |} |}
  | GrpcGatewayRouteServicenameMatchImpl serviceName options =>
      {| grpcRequestMatch :=
           {| grpcServiceName := Some serviceName;
              grpcHostname :=
                option_map (bindHostname scope) (chain options grpcServiceNameOptHostname);
              grpcMetadata :=
                option_map (bindMetadata scope) (chain options grpcServiceNameOptMetadata) |} |}
  end.

(** ** Rewrites *)

(** Enum of rewrite default target, with its string values. *)
Inductive Default := ENABLED | DISABLED.

Definition Default_value (d : Default) : string :=
  match d with
  | ENABLED => "enabled"
  | DISABLED => "disabled"
  end.

(** [CfnGatewayRoute.GatewayRouteHostnameRewriteProperty] *)
Record GatewayRouteHostnameRewriteProperty := {
  defaultTargetHostname : option string
}.

(** [CfnGatewayRoute.HttpGatewayRoutePathRewriteProperty] *)
Record HttpGatewayRoutePathRewriteProperty := {
  rewriteExact : option string
}.

(** [CfnGatewayRoute.HttpGatewayRoutePrefixRewriteProperty] *)
Record HttpGatewayRoutePrefixRewriteProperty := {
  defaultPrefix : option string;
  value : option string
}.

Record HttpGatewayRouteRewriteConfig := {
  rewriteHostname : option GatewayRouteHostnameRewriteProperty;
  rewritePath : option HttpGatewayRoutePathRewriteProperty;
  rewritePrefix : option HttpGatewayRoutePrefixRewriteProperty
}.

(** HTTP rewrite that can be defined in addition to the host name. *)
Inductive HttpGatewayRouteHostnameOtherRewrite :=
| HttpGatewayRoutePathRewriteImpl (exact : string)
| HttpGatewayRoutePrefixRewriteImpl (prefixRewrite : HttpGatewayRoutePrefixRewriteProperty).

Definition HttpGatewayRouteHostnameOtherRewrite_path (exact : string) :=
  HttpGatewayRoutePathRewriteImpl exact.

Definition HttpGatewayRouteHostnameOtherRewrite_defaultPrefix (isDefault : Default) :=
  HttpGatewayRoutePrefixRewriteImpl
    {| defaultPrefix := Some (Default_value isDefault); value := None |}.

Definition HttpGatewayRouteHostnameOtherRewrite_customPrefix (value0 : Default) :=
  HttpGatewayRoutePrefixRewriteImpl
    {| defaultPrefix := None; value := Some (Default_value value0) |}.

Definition HttpGatewayRouteHostnameOtherRewrite_bind
  (this : HttpGatewayRouteHostnameOtherRewrite) (_scope : Construct)
  : HttpGatewayRouteRewriteConfig :=
  match this with
  | HttpGatewayRoutePathRewriteImpl exact =>
      {| rewritePath := Some {| rewriteExact := Some exact |};
         rewriteHostname := None; rewritePrefix := None |}
  | HttpGatewayRoutePrefixRewriteImpl prefixRewrite =>
      {| rewritePrefix := Some prefixRewrite;
         rewriteHostname := None; rewritePath := None |}
  end.

Record HttpGatewayRouteHostnameRewriteOptions := {
  other : option HttpGatewayRouteHostnameOtherRewrite
}.

Record HttpGatewayRoutePrefixRewriteOptions := {
  optDefaultTargetHostname : option string
}.

Inductive HttpGatewayRouteRewrite :=
| HttpGatewayRouteHostnameRewrite (defaultTarget : Default)
    (options : option HttpGatewayRouteHostnameRewriteOptions)
| HttpGatewayRoutePathRewrite (exact : string)
    (options : option HttpGatewayRoutePrefixRewriteOptions)
| HttpGatewayRoutePrefixRewrite (prefixRewrite : HttpGatewayRoutePrefixRewriteProperty)
    (options : option HttpGatewayRoutePrefixRewriteOptions).

Definition HttpGatewayRouteRewrite_defaultHostname
  (isDefault : Default) (options : option HttpGatewayRouteHostnameRewriteOptions) :=
  HttpGatewayRouteHostnameRewrite isDefault options.

Definition HttpGatewayRouteRewrite_path
  (exact : string) (options : option HttpGatewayRoutePrefixRewriteOptions) :=
  HttpGatewayRoutePathRewrite exact options.

Definition HttpGatewayRouteRewrite_defaultPrefix
  (isDefault : Default) (options : option HttpGatewayRoutePrefixRewriteOptions) :=
  HttpGatewayRoutePrefixRewrite
    {| defaultPrefix := Some (Default_value isDefault); value := None |} options.

Definition HttpGatewayRouteRewrite_customPrefix
  (value0 : Default) (options : option HttpGatewayRoutePrefixRewriteOptions) :=
  HttpGatewayRoutePrefixRewrite
    {| defaultPrefix := None; value := Some (Default_value value0) |} options.

Definition HttpGatewayRouteRewrite_bind (this : HttpGatewayRouteRewrite) (scope : Construct)
  : HttpGatewayRouteRewriteConfig :=
  match this with
  | HttpGatewayRouteHostnameRewrite defaultTarget options =>
      let rewrite := chain options other in
      {| rewriteHostname :=
           Some {| defaultTargetHostname := Some (Default_value defaultTarget) |};
         rewritePrefix :=
           match rewrite with
           | Some rewrite => rewritePrefix (HttpGatewayRouteHostnameOtherRewrite_bind rewrite scope)
           | None => None
           end;
         rewritePath :=
           match rewrite with
           | Some rewrite => rewritePath (HttpGatewayRouteHostnameOtherRewrite_bind rewrite scope)
           | None => None
           end |}
  | HttpGatewayRoutePathRewrite exact options =>
      {| rewritePath := Some {| rewriteExact := Some exact |};
         rewriteHostname :=
           Some {| defaultTargetHostname := chain options optDefaultTargetHostname |};
         rewritePrefix := None |}
  | HttpGatewayRoutePrefixRewrite prefixRewrite options =>
      {| rewritePrefix := Some prefixRewrite;
         rewriteHostname :=
           Some {| defaultTargetHostname := chain options optDefaultTargetHostname |};
         rewritePath := None |}
  end.

Record GrpcGatewayRouteRewriteConfig := {
  grpcRewriteHostname : option GatewayRouteHostnameRewriteProperty
}.

Inductive GrpcGatewayRouteRewrite :=
| GrpcGatewayRouteRewriteImpl (defaultTarget : Default).

Definition GrpcGatewayRouteRewrite_defaultHostname (isDefault : Default) :=
  GrpcGatewayRouteRewriteImpl isDefault.

Definition GrpcGatewayRouteRewrite_bind (this : GrpcGatewayRouteRewrite) (_scope : Construct)
  : GrpcGatewayRouteRewriteConfig :=
  match this with
  | GrpcGatewayRouteRewriteImpl defaultTarget =>
      {| grpcRewriteHostname :=
           Some {| defaultTargetHostname := Some (Default_value defaultTarget) |} |}
  end.

(** ** Gateway route specs *)

(** Enum of supported AppMesh protocols ([shared-interfaces.ts]). *)
Inductive Protocol := HTTP | TCP | HTTP2 | GRPC.

(** [a === b] on [Protocol] values. *)
Definition Protocol_eqb (a b : Protocol) : bool :=
  match a, b with
  | HTTP, HTTP | TCP, TCP | HTTP2, HTTP2 | GRPC, GRPC => true
  | _, _ => false
  end.

Record GatewayRouteVirtualServiceProperty := {
  targetVirtualServiceName : string
}.

Record GatewayRouteTargetProperty := {
  virtualService : GatewayRouteVirtualServiceProperty
}.

(** [CfnGatewayRoute.HttpGatewayRouteRewriteProperty] *)
Record HttpGatewayRouteRewriteProperty := {
  actionRewriteHostname : option GatewayRouteHostnameRewriteProperty;
  actionRewritePath : option HttpGatewayRoutePathRewriteProperty;
  actionRewritePrefix : option HttpGatewayRoutePrefixRewriteProperty
}.

Record HttpGatewayRouteActionProperty := {
  httpTarget : GatewayRouteTargetProperty;
  httpActionRewrite : option HttpGatewayRouteRewriteProperty
}.

(** [CfnGatewayRoute.HttpGatewayRouteProperty] *)
Record HttpGatewayRouteProperty := {
  httpRouteMatch : HttpGatewayRouteMatchProperty;
  httpRouteAction : HttpGatewayRouteActionProperty
}.

(** [CfnGatewayRoute.GrpcGatewayRouteRewriteProperty] *)
Record GrpcGatewayRouteRewriteProperty := {
  grpcActionRewriteHostname : option GatewayRouteHostnameRewriteProperty
}.

Record GrpcGatewayRouteActionProperty := {
  grpcTarget : GatewayRouteTargetProperty;
  grpcActionRewrite : option GrpcGatewayRouteRewriteProperty
}.

(** [CfnGatewayRoute.GrpcGatewayRouteProperty] *)
Record GrpcGatewayRouteProperty := {
  grpcRouteAction : GrpcGatewayRouteActionProperty;
  grpcRouteMatch : GrpcGatewayRouteMatchProperty
}.

Record HttpGatewayRouteSpecOptions := {
  httpOptMatch : option HttpGatewayRouteMatch;
  httpOptRouteTarget : IVirtualService;
  httpOptRewrite : option HttpGatewayRouteRewrite
}.

Record GrpcGatewayRouteSpecOptions := {
  grpcOptMatch : GrpcGatewayRouteMatch;
  grpcOptRouteTarget : IVirtualService;
  grpcOptRewrite : option GrpcGatewayRouteRewrite
}.

(** All properties for gateway route specs: the three output slots. *)
Record GatewayRouteSpecConfig := {
  httpSpecConfig : option HttpGatewayRouteProperty;
  http2SpecConfig : option HttpGatewayRouteProperty;
  grpcSpecConfig : option GrpcGatewayRouteProperty
}.

(** The fields of [class HttpGatewayRouteSpec]. *)
Record HttpGatewayRouteSpec := {
  httpMatch : option HttpGatewayRouteMatch;
  httpRouteTarget : IVirtualService;
  routeType : Protocol;
  httpRewrite : option HttpGatewayRouteRewrite
}.

(** The fields of [class GrpcGatewayRouteSpec]. *)
Record GrpcGatewayRouteSpec := {
  grpcMatch : GrpcGatewayRouteMatch;
  grpcRouteTarget : IVirtualService;
  grpcRewrite : option GrpcGatewayRouteRewrite
}.

(** [constructor(options, protocol)] of [HttpGatewayRouteSpec]. *)
Definition new_HttpGatewayRouteSpec (options : HttpGatewayRouteSpecOptions)
  (protocol : Protocol) : HttpGatewayRouteSpec :=
  {| httpRouteTarget := httpOptRouteTarget options;
     routeType := protocol;
     httpMatch := httpOptMatch options;
     httpRewrite := httpOptRewrite options |}.

(** [constructor(options)] of [GrpcGatewayRouteSpec]: it assigns [match]
    and [routeTarget] only, so the declared field [rewrite] stays
    [undefined]. *)
Definition new_GrpcGatewayRouteSpec (options : GrpcGatewayRouteSpecOptions)
  : GrpcGatewayRouteSpec :=
  {| grpcMatch := grpcOptMatch options;
     grpcRouteTarget := grpcOptRouteTarget options;
     grpcRewrite := None |}.

Inductive GatewayRouteSpec :=
| HttpSpec (spec : HttpGatewayRouteSpec)
| GrpcSpec (spec : GrpcGatewayRouteSpec).

Definition GatewayRouteSpec_http (options : HttpGatewayRouteSpecOptions) : GatewayRouteSpec :=
  HttpSpec (new_HttpGatewayRouteSpec options HTTP).

Definition GatewayRouteSpec_http2 (options : HttpGatewayRouteSpecOptions) : GatewayRouteSpec :=
  HttpSpec (new_HttpGatewayRouteSpec options HTTP2).

Definition GatewayRouteSpec_grpc (options : GrpcGatewayRouteSpecOptions) : GatewayRouteSpec :=
  GrpcSpec (new_GrpcGatewayRouteSpec options).

(** [this.match ? this.match.bind(scope).requestMatch.prefix : '/'] *)
Definition prefixPath (this : HttpGatewayRouteSpec) (scope : Construct) : option string :=
  match httpMatch this with
  | Some m => prefix (requestMatch (HttpGatewayRouteMatch_bind m scope))
  | None => Some "/"
  end.

(** [this.match?.bind(scope).requestMatch.prefix] *)
Definition matchPrefix (this : HttpGatewayRouteSpec) (scope : Construct) : option string :=
  chain (httpMatch this) (fun m => prefix (requestMatch (HttpGatewayRouteMatch_bind m scope))).

(** [this.rewrite?.bind(scope).prefix] *)
Definition rewriteBoundPrefix (this : HttpGatewayRouteSpec) (scope : Construct) :=
  chain (httpRewrite this) (fun r => rewritePrefix (HttpGatewayRouteRewrite_bind r scope)).

(** [this.rewrite?.bind(scope).path] *)
Definition rewriteBoundPath (this : HttpGatewayRouteSpec) (scope : Construct) :=
  chain (httpRewrite this) (fun r => rewritePath (HttpGatewayRouteRewrite_bind r scope)).

Definition HttpGatewayRouteSpec_bind (this : HttpGatewayRouteSpec) (scope : Construct)
  : result GatewayRouteSpecConfig :=
  let prefixPath := prefixPath this scope in
  match prefixPath with
  | Some p => throwIf (truthy prefixPath && firstCharIsNot p "/") (InvalidPrefixFormat p)
  | None => Return tt
  end ;;;
  throwIf (defined (rewriteBoundPrefix this scope) && negb (truthy (matchPrefix this scope)))
    PrefixRewriteRequiresPrefixMatch ;;;
  throwIf (defined (rewriteBoundPath this scope) && truthy (matchPrefix this scope))
    PathRewriteConflictsWithPrefixMatch ;;;
  let bound (A : Type) (f : HttpGatewayRouteMatchProperty -> option A) :=
    chain (httpMatch this) (fun m => f (requestMatch (HttpGatewayRouteMatch_bind m scope))) in
  let httpConfig :=
    {| httpRouteMatch :=
         {| prefix := prefixPath;
            headers := bound _ headers;
            hostname := bound _ hostname;
            method := bound _ method;
            path := bound _ path;
            queryParameters := bound _ queryParameters |};
       httpRouteAction :=
         {| httpTarget :=
              {| virtualService :=
                   {| targetVirtualServiceName :=
                        virtualServiceName (httpRouteTarget this) |} |};
            httpActionRewrite :=
              match httpRewrite this with
              | Some rewrite =>
                  Some {| actionRewriteHostname :=
                            rewriteHostname (HttpGatewayRouteRewrite_bind rewrite scope);
                          actionRewritePath :=
                            rewritePath (HttpGatewayRouteRewrite_bind rewrite scope);
                          actionRewritePrefix :=
                            rewritePrefix (HttpGatewayRouteRewrite_bind rewrite scope) |}
              | None => None
              end |} |} in
  Return
    {| httpSpecConfig := if Protocol_eqb (routeType this) HTTP then Some httpConfig else None;
       http2SpecConfig := if Protocol_eqb (routeType this) HTTP2 then Some httpConfig else None;
       grpcSpecConfig := None |}.

Definition GrpcGatewayRouteSpec_bind (this : GrpcGatewayRouteSpec) (scope : Construct)
  : result GatewayRouteSpecConfig :=
  Return
    {| grpcSpecConfig :=
         Some
           {| grpcRouteAction :=
                {| grpcTarget :=
                     {| virtualService :=
                          {| targetVirtualServiceName :=
                               virtualServiceName (grpcRouteTarget this) |} |};
                   grpcActionRewrite :=
                     match grpcRewrite this with
                     | Some rewrite =>
                         Some {| grpcActionRewriteHostname :=
                                   grpcRewriteHostname
                                     (GrpcGatewayRouteRewrite_bind rewrite scope) |}
                     | None => None
                     end |};
              grpcRouteMatch :=
                grpcRequestMatch (GrpcGatewayRouteMatch_bind (grpcMatch this) scope) |};
       httpSpecConfig := None;
       http2SpecConfig := None |}.

(** Dynamic dispatch of the abstract [GatewayRouteSpec.bind]. *)
Definition GatewayRouteSpec_bind (this : GatewayRouteSpec) (scope : Construct)
  : result GatewayRouteSpecConfig :=
  match this with
  | HttpSpec spec => HttpGatewayRouteSpec_bind spec scope
  | GrpcSpec spec => GrpcGatewayRouteSpec_bind spec scope
  end.

(** ** Vocabulary of the properties *)

(** The output slots that are populated, in declaration order. *)
Definition populatedSlots (config : GatewayRouteSpecConfig) : list Protocol :=
  (if defined (httpSpecConfig config) then [HTTP] else [])
  ++ (if defined (http2SpecConfig config) then [HTTP2] else [])
  ++ (if defined (grpcSpecConfig config) then [GRPC] else []).

(** The HTTP or HTTP2 route property of an output, whichever is populated. *)
Definition httpOutput (config : GatewayRouteSpecConfig) : option HttpGatewayRouteProperty :=
  match httpSpecConfig config with
  | Some http => Some http
  | None => http2SpecConfig config
  end.

(** [CreatedWith spec protocol]: [spec] comes out of the factory method of
    [GatewayRouteSpec] for [protocol]. *)
Inductive CreatedWith : GatewayRouteSpec -> Protocol -> Prop :=
| created_http options : CreatedWith (GatewayRouteSpec_http options) HTTP
| created_http2 options : CreatedWith (GatewayRouteSpec_http2 options) HTTP2
| created_grpc options : CreatedWith (GatewayRouteSpec_grpc options) GRPC.

(** Rewrites that carry a prefix rewrite: [defaultPrefix] and [customPrefix],
    on their own or as the [other] part of [defaultHostname]. *)
Inductive PrefixRewriteAction : HttpGatewayRouteRewrite -> Prop :=
| prefix_action_default isDefault options :
    PrefixRewriteAction (HttpGatewayRouteRewrite_defaultPrefix isDefault options)
| prefix_action_custom value0 options :
    PrefixRewriteAction (HttpGatewayRouteRewrite_customPrefix value0 options)
| prefix_action_hostname_default isDefault isDefault' :
    PrefixRewriteAction
      (HttpGatewayRouteRewrite_defaultHostname isDefault
         (Some {| other := Some (HttpGatewayRouteHostnameOtherRewrite_defaultPrefix isDefault') |}))
| prefix_action_hostname_custom isDefault value0 :
    PrefixRewriteAction
      (HttpGatewayRouteRewrite_defaultHostname isDefault
         (Some {| other := Some (HttpGatewayRouteHostnameOtherRewrite_customPrefix value0) |})).

(** Rewrites that carry a path rewrite: [path], on its own or as the
    [other] part of [defaultHostname]. *)
Inductive PathRewriteAction : HttpGatewayRouteRewrite -> Prop :=
| path_action exact options :
    PathRewriteAction (HttpGatewayRouteRewrite_path exact options)
| path_action_hostname isDefault exact :
    PathRewriteAction
      (HttpGatewayRouteRewrite_defaultHostname isDefault
         (Some {| other := Some (HttpGatewayRouteHostnameOtherRewrite_path exact) |})).

(** [FromPathOrPrefixEntry rewrite options]: [rewrite] comes out of the
    [path], [defaultPrefix] or [customPrefix] entry point of
    [HttpGatewayRouteRewrite], called with [options]. *)
Inductive FromPathOrPrefixEntry
  : HttpGatewayRouteRewrite -> option HttpGatewayRoutePrefixRewriteOptions -> Prop :=
| entry_path exact options :
    FromPathOrPrefixEntry (HttpGatewayRouteRewrite_path exact options) options
| entry_defaultPrefix isDefault options :
    FromPathOrPrefixEntry (HttpGatewayRouteRewrite_defaultPrefix isDefault options) options
| entry_customPrefix value0 options :
    FromPathOrPrefixEntry (HttpGatewayRouteRewrite_customPrefix value0 options) options.

(** An options bag with every property left out. *)
Definition noMethodMatchOptions : HttpGatewayRouteMethodMatchOptions :=
  {| methodOptHeaders := None; methodOptHostname := None;
     methodOptQueryParameters := None; methodOptPrefixOrPath := None |}.

Definition noPathMatchOptions : HttpGatewayRoutePathMatchOptions :=
  {| pathOptHeaders := None; pathOptMethod := None;
     pathOptHostname := None; pathOptQueryParameters := None |}.

(** [GatewayRouteSpec.http({ match: HttpGatewayRouteMatch.method(Method.GET, {}), routeTarget })] *)
Definition methodOnlySpec (routeTarget : IVirtualService) : GatewayRouteSpec :=
  GatewayRouteSpec_http
    {| httpOptMatch := Some (HttpGatewayRouteMatch_method GET noMethodMatchOptions);
       httpOptRouteTarget := routeTarget;
       httpOptRewrite := None |}.

(** [GatewayRouteSpec.http({ routeTarget,
      rewrite: HttpGatewayRouteRewrite.defaultPrefix(Default.ENABLED) })] *)
Definition defaultMatchPrefixRewriteSpec (routeTarget : IVirtualService) : GatewayRouteSpec :=
  GatewayRouteSpec_http
    {| httpOptMatch := None;
       httpOptRouteTarget := routeTarget;
       httpOptRewrite := Some (HttpGatewayRouteRewrite_defaultPrefix ENABLED None) |}.

(** [GatewayRouteSpec.http({ routeTarget, rewrite: HttpGatewayRouteRewrite.path('/check') })] *)
Definition defaultMatchPathRewriteSpec (routeTarget : IVirtualService) : GatewayRouteSpec :=
  GatewayRouteSpec_http
    {| httpOptMatch := None;
       httpOptRouteTarget := routeTarget;
       httpOptRewrite := Some (HttpGatewayRouteRewrite_path "/check" None) |}.

(** [new HttpGatewayRouteSpec({ match: HttpGatewayRouteMatch.prefix(prefix),
      routeTarget, rewrite: HttpGatewayRouteRewrite.path('/check') }, protocol)] *)
Definition prefixMatchPathRewriteSpec (prefix0 : string) (protocol : Protocol)
  (routeTarget : IVirtualService) : HttpGatewayRouteSpec :=
  new_HttpGatewayRouteSpec
    {| httpOptMatch := Some (HttpGatewayRouteMatch_prefix prefix0 None);
       httpOptRouteTarget := routeTarget;
       httpOptRewrite := Some (HttpGatewayRouteRewrite_path "/check" None) |}
    protocol.

(** [new HttpGatewayRouteSpec({ match: HttpGatewayRouteMatch.path(
      HttpPathMatch.matchingExactly('/health'), {}), routeTarget,
      rewrite }, protocol)] *)
Definition pathMatchSpec (rewrite : option HttpGatewayRouteRewrite) (protocol : Protocol)
  (routeTarget : IVirtualService) : HttpGatewayRouteSpec :=
  new_HttpGatewayRouteSpec
    {| httpOptMatch :=
         Some (HttpGatewayRouteMatch_path (HttpPathMatch_matchingExactly "/health")
                 noPathMatchOptions);
       httpOptRouteTarget := routeTarget;
       httpOptRewrite := rewrite |}
    protocol.

(** [GatewayRouteSpec.grpc({ match: GrpcGatewayRouteMatch.serviceName(serviceName, options),
      routeTarget, rewrite: GrpcGatewayRouteRewrite.defaultHostname(isDefault) })] *)
Definition serviceNameSpec (serviceName : string)
  (options : option GrpcGatewayRouteServiceNameMatchOptions) (isDefault : Default)
  (routeTarget : IVirtualService) : GatewayRouteSpec :=
  GatewayRouteSpec_grpc
    {| grpcOptMatch := GrpcGatewayRouteMatch_serviceName serviceName options;
       grpcOptRouteTarget := routeTarget;
       grpcOptRewrite := Some (GrpcGatewayRouteRewrite_defaultHostname isDefault) |}.

(** [const httpConfig] of [HttpGatewayRouteSpec.bind], on its own. *)
Definition httpConfig (this : HttpGatewayRouteSpec) (scope : Construct)
  : HttpGatewayRouteProperty :=
  let bound (A : Type) (f : HttpGatewayRouteMatchProperty -> option A) :=
    chain (httpMatch this) (fun m => f (requestMatch (HttpGatewayRouteMatch_bind m scope))) in
  {| httpRouteMatch :=
       {| prefix := prefixPath this scope;
          headers := bound _ headers;
          hostname := bound _ hostname;
          method := bound _ method;
          path := bound _ path;
          queryParameters := bound _ queryParameters |};
     httpRouteAction :=
       {| httpTarget :=
            {| virtualService :=
                 {| targetVirtualServiceName := virtualServiceName (httpRouteTarget this) |} |};
          httpActionRewrite :=
            match httpRewrite this with
            | Some rewrite =>
                Some {| actionRewriteHostname :=
                          rewriteHostname (HttpGatewayRouteRewrite_bind rewrite scope);
                        actionRewritePath :=
                          rewritePath (HttpGatewayRouteRewrite_bind rewrite scope);
                        actionRewritePrefix :=
                          rewritePrefix (HttpGatewayRouteRewrite_bind rewrite scope) |}
            | None => None
            end |} |}.

(** The number of criteria a bound HTTP match defines. *)
Definition httpCriteria (m : HttpGatewayRouteMatchProperty) : nat :=
  (if defined (prefix m) then 1 else 0) + (if defined (path m) then 1 else 0)
  + (if defined (headers m) then 1 else 0) + (if defined (hostname m) then 1 else 0)
  + (if defined (method m) then 1 else 0) + (if defined (queryParameters m) then 1 else 0).

(** The number of criteria a bound gRPC match defines. *)
Definition grpcCriteria (m : GrpcGatewayRouteMatchProperty) : nat :=
  (if defined (grpcHostname m) then 1 else 0) + (if defined (grpcMetadata m) then 1 else 0)
  + (if defined (grpcServiceName m) then 1 else 0).

(** The number of matcher variants a metadata match property defines. *)
Definition metadataVariants (m : GatewayRouteMetadataMatchProperty) : nat :=
  (if defined (metadataExact m) then 1 else 0) + (if defined (metadataPrefix m) then 1 else 0)
  + (if defined (metadataSuffix m) then 1 else 0) + (if defined (metadataRegex m) then 1 else 0)
  + (if defined (metadataRange m) then 1 else 0).

(** Which matcher variants a metadata match property defines, in the order
    exact, prefix, suffix, regex, range. *)
Definition metadataVariantFlags (m : GatewayRouteMetadataMatchProperty) : list bool :=
  [ defined (metadataExact m); defined (metadataPrefix m); defined (metadataSuffix m);
    defined (metadataRegex m); defined (metadataRange m) ].

(** The factory methods of [GrpcMetadataMatch], each positive one next to
    its negated twin. *)
Definition metadataFactoryPairs (metadataName value0 prefix0 suffix regex : string)
  (start end_ : number) : list (GrpcMetadataMatch * GrpcMetadataMatch) :=
  [ (GrpcMetadataMatch_valueIs metadataName value0,
     GrpcMetadataMatch_valueIsNot metadataName value0);
    (GrpcMetadataMatch_valueStartsWith metadataName prefix0,
     GrpcMetadataMatch_valueDoesNotStartWith metadataName prefix0);
    (GrpcMetadataMatch_valueEndsWith metadataName suffix,
     GrpcMetadataMatch_valueDoesNotEndWith metadataName suffix);
    (GrpcMetadataMatch_valueMatchesRegex metadataName regex,
     GrpcMetadataMatch_valueDoesNotMatchRegex metadataName regex);
    (GrpcMetadataMatch_valuesIsInRange metadataName start end_,
     GrpcMetadataMatch_valuesIsNotInRange metadataName start end_) ].

End GatewayRoute.

Section TlsValidation.
Context {env : Environment}.

(** ** TLS validation trusts ([tls-validation.ts]) *)

Record TlsValidationContextAcmTrustProperty := {
  certificateAuthorityArns : list string
}.

Record TlsValidationContextFileTrustProperty := {
  trustCertificateChain : string
}.

Record TlsValidationContextSdsTrustProperty := {
  trustSecretName : string
}.

(** [CfnVirtualNode.TlsValidationContextTrustProperty] *)
Record TlsValidationContextTrustProperty := {
  acm : option TlsValidationContextAcmTrustProperty;
  file : option TlsValidationContextFileTrustProperty;
  sds : option TlsValidationContextSdsTrustProperty
}.

Record TlsValidationTrustConfig := {
  tlsValidationTrust : TlsValidationContextTrustProperty
}.

Record TlsValidationAcmTrustOptions := {
  certificateAuthorities : list ICertificateAuthority
}.

Record TlsValidationFileTrustOptions := {
  certificateChain : string
}.

Record TlsValidationSdsTrustOptions := {
  secretName : string
}.

Inductive TlsValidationTrust :=
| TlsValidationAcmTrust (certificateAuthorities : list ICertificateAuthority)
| TlsValidationFileTrust (certificateChain : string)
| TlsValidationSdsTrust (secretName : string).

Definition TlsValidationTrust_file (props : TlsValidationFileTrustOptions) :=
  TlsValidationFileTrust (certificateChain props).

Definition TlsValidationTrust_acm (props : TlsValidationAcmTrustOptions) :=
  TlsValidationAcmTrust (certificateAuthorities props).

Definition TlsValidationTrust_sds (props : TlsValidationSdsTrustOptions) :=
  TlsValidationSdsTrust (secretName props).

Definition TlsValidationTrust_bind (this : TlsValidationTrust) (_scope : Construct)
  : result TlsValidationTrustConfig :=
  match this with
  | TlsValidationAcmTrust certificateAuthorities =>
      if Nat.eqb (length certificateAuthorities) 0
      then Throw MissingCertificateAuthority
      else
        Return
          {| tlsValidationTrust :=
               {| acm :=
                    Some {| certificateAuthorityArns :=
                              map (fun certificateArn => certificateAuthorityArn certificateArn)
                                certificateAuthorities |};
                  file := None; sds := None |} |}
  | TlsValidationFileTrust certificateChain =>
      Return
        {| tlsValidationTrust :=
             {| file := Some {| trustCertificateChain := certificateChain |};
                acm := None; sds := None |} |}
  | TlsValidationSdsTrust secretName =>
      Return
        {| tlsValidationTrust :=
             {| sds := Some {| trustSecretName := secretName |};
                acm := None; file := None |} |}
  end.

(** The three kinds of trust, and those a trust property populates. *)
Inductive TrustKind := AcmTrust | FileTrust | SdsTrust.

Definition trustKind (trust : TlsValidationTrust) : TrustKind :=
  match trust with
  | TlsValidationAcmTrust _ => AcmTrust
  | TlsValidationFileTrust _ => FileTrust
  | TlsValidationSdsTrust _ => SdsTrust
  end.

Definition populatedTrusts (trust : TlsValidationContextTrustProperty) : list TrustKind :=
  (if defined (acm trust) then [AcmTrust] else [])
  ++ (if defined (file trust) then [FileTrust] else [])
  ++ (if defined (sds trust) then [SdsTrust] else []).

End TlsValidation.

(** * Properties *)

Section Properties.
Context {env : Environment}.

(** ** JavaScript helpers *)

Lemma firstCharIsNot_slash (p : string) :
  firstCharIsNot p "/" = negb (String.prefix "/" p).
Proof.
  destruct p as [|c rest]; [reflexivity|].
  unfold firstCharIsNot. cbn [get String.prefix].
  destruct (ascii_dec "/" c) as [<-|Hne].
  - cbn. now destruct rest.
  - destruct (Ascii.eqb_spec c "/") as [->|_]; [now elim Hne | reflexivity].
Qed.

Lemma truthy_nonempty (p : string) : p <> "" -> truthy (Some p) = true.
Proof. destruct p; [now intros [] | reflexivity]. Qed.

Lemma truthy_starts_with_slash (p : string) :
  String.prefix "/" p = true -> truthy (Some p) = true.
Proof. destruct p; [discriminate | reflexivity]. Qed.

(** ** What the bound rewrites carry *)

Lemma PrefixRewriteAction_bound (r : HttpGatewayRouteRewrite) (scope : Construct) :
  PrefixRewriteAction r ->
  defined (rewritePrefix (HttpGatewayRouteRewrite_bind r scope)) = true
  /\ rewritePath (HttpGatewayRouteRewrite_bind r scope) = None.
Proof. intros []; split; reflexivity. Qed.

Lemma PathRewriteAction_bound (r : HttpGatewayRouteRewrite) (scope : Construct) :
  PathRewriteAction r ->
  defined (rewritePath (HttpGatewayRouteRewrite_bind r scope)) = true
  /\ rewritePrefix (HttpGatewayRouteRewrite_bind r scope) = None.
Proof. intros []; split; reflexivity. Qed.

(** The prefix that the pairing checks read is the resolved prefix whenever
    a match was supplied, and is absent otherwise. *)
Lemma matchPrefix_prefixPath (this : HttpGatewayRouteSpec) (scope : Construct) :
  matchPrefix this scope =
  match httpMatch this with
  | Some _ => prefixPath this scope
  | None => None
  end.
Proof. unfold matchPrefix, prefixPath. now destruct (httpMatch this). Qed.

(** ** The control flow of [HttpGatewayRouteSpec.bind] *)

(** The three guards, in the order in which [bind] evaluates them. *)
Lemma HttpGatewayRouteSpec_bind_throws_format
  (this : HttpGatewayRouteSpec) (scope : Construct) (p : string) :
  prefixPath this scope = Some p ->
  truthy (Some p) = true ->
  String.prefix "/" p = false ->
  HttpGatewayRouteSpec_bind this scope = Throw (InvalidPrefixFormat p).
Proof.
  intros Hp Ht Hs. unfold HttpGatewayRouteSpec_bind.
  rewrite Hp, Ht, firstCharIsNot_slash, Hs. reflexivity.
Qed.

Lemma format_check_passes (this : HttpGatewayRouteSpec) (scope : Construct) :
  prefixPath this scope = None
  \/ prefixPath this scope = Some ""
  \/ (exists p, prefixPath this scope = Some p /\ String.prefix "/" p = true) ->
  match prefixPath this scope with
  | Some p =>
      throwIf (truthy (prefixPath this scope) && firstCharIsNot p "/") (InvalidPrefixFormat p)
  | None => Return tt
  end = Return tt.
Proof.
  intros [-> | [-> | (p & -> & Hs)]]; try reflexivity.
  now rewrite firstCharIsNot_slash, Hs, andb_false_r.
Qed.

Lemma HttpGatewayRouteSpec_bind_throws_prefix_rewrite
  (this : HttpGatewayRouteSpec) (scope : Construct) :
  prefixPath this scope = None
  \/ prefixPath this scope = Some ""
  \/ (exists p, prefixPath this scope = Some p /\ String.prefix "/" p = true) ->
  defined (rewriteBoundPrefix this scope) = true ->
  truthy (matchPrefix this scope) = false ->
  HttpGatewayRouteSpec_bind this scope = Throw PrefixRewriteRequiresPrefixMatch.
Proof.
  intros Hf Hr Hm. unfold HttpGatewayRouteSpec_bind.
  rewrite (format_check_passes _ _ Hf), Hr, Hm. reflexivity.
Qed.

Lemma HttpGatewayRouteSpec_bind_throws_path_rewrite
  (this : HttpGatewayRouteSpec) (scope : Construct) :
  (exists p, prefixPath this scope = Some p /\ String.prefix "/" p = true) ->
  rewriteBoundPrefix this scope = None ->
  defined (rewriteBoundPath this scope) = true ->
  truthy (matchPrefix this scope) = true ->
  HttpGatewayRouteSpec_bind this scope = Throw PathRewriteConflictsWithPrefixMatch.
Proof.
  intros Hf Hr Hp Hm. unfold HttpGatewayRouteSpec_bind.
  rewrite (format_check_passes this scope) by auto.
  rewrite Hr, Hp, Hm. reflexivity.
Qed.

(** What a successful [bind] returns. *)
Lemma HttpGatewayRouteSpec_bind_Return
  (this : HttpGatewayRouteSpec) (scope : Construct) (config : GatewayRouteSpecConfig) :
  HttpGatewayRouteSpec_bind this scope = Return config ->
  exists httpConfig,
    config =
      {| httpSpecConfig := if Protocol_eqb (routeType this) HTTP then Some httpConfig else None;
         http2SpecConfig := if Protocol_eqb (routeType this) HTTP2 then Some httpConfig else None;
         grpcSpecConfig := None |}
    /\ prefix (httpRouteMatch httpConfig) = prefixPath this scope
    /\ path (httpRouteMatch httpConfig) =
         chain (httpMatch this)
           (fun m => path (requestMatch (HttpGatewayRouteMatch_bind m scope)))
    /\ httpActionRewrite (httpRouteAction httpConfig) =
         option_map
           (fun r =>
              {| actionRewriteHostname := rewriteHostname (HttpGatewayRouteRewrite_bind r scope);
                 actionRewritePath := rewritePath (HttpGatewayRouteRewrite_bind r scope);
                 actionRewritePrefix := rewritePrefix (HttpGatewayRouteRewrite_bind r scope) |})
           (httpRewrite this).
Proof.
  unfold HttpGatewayRouteSpec_bind.
  destruct (prefixPath this scope) as [p|] eqn:Hp;
    [destruct (truthy (Some p) && firstCharIsNot p "/"); [discriminate|] |];
    cbn [throwIf result_bind];
    (destruct (defined (rewriteBoundPrefix this scope) && negb (truthy (matchPrefix this scope)));
       [discriminate|]);
    (destruct (defined (rewriteBoundPath this scope) && truthy (matchPrefix this scope));
       [discriminate|]);
    cbn [throwIf result_bind]; intros [= <-];
    (eexists; split; [reflexivity|]); cbn; repeat split;
    now destruct (httpRewrite this).
Qed.

(** Whatever the two pairing checks and the assembly produce, it is not the
    prefix format error. *)
Ltac pairing_checks_differ :=
  match goal with
  | |- context [throwIf (defined (rewriteBoundPrefix ?this ?scope) && ?c)] =>
      destruct (defined (rewriteBoundPrefix this scope) && c);
      [discriminate|];
      destruct (defined (rewriteBoundPath this scope) && truthy (matchPrefix this scope));
      discriminate
  end.

(** Only one of the three guards raises the prefix format error. *)
Lemma HttpGatewayRouteSpec_bind_format_error
  (this : HttpGatewayRouteSpec) (scope : Construct) (got : string) :
  HttpGatewayRouteSpec_bind this scope = Throw (InvalidPrefixFormat got) ->
  exists p, prefixPath this scope = Some p
            /\ truthy (Some p) = true /\ String.prefix "/" p = false.
Proof.
  unfold HttpGatewayRouteSpec_bind.
  destruct (prefixPath this scope) as [p|] eqn:Hp.
  - destruct (truthy (Some p)) eqn:Ht, (firstCharIsNot p "/") eqn:Hc;
      cbn [andb throwIf result_bind]; try pairing_checks_differ.
    intros _. exists p. rewrite firstCharIsNot_slash in Hc.
    destruct (String.prefix "/" p); [discriminate | auto].
  - cbn [throwIf result_bind]. pairing_checks_differ.
Qed.

(** ** Defaulting of the prefix *)

(** Without a match the compiled prefix is "/"; with a match it is whatever
    the match binds, defined or not. *)
Lemma compiled_prefix (this : HttpGatewayRouteSpec) (scope : Construct)
  (config : GatewayRouteSpecConfig) (http : HttpGatewayRouteProperty) :
  HttpGatewayRouteSpec_bind this scope = Return config ->
  httpOutput config = Some http ->
  prefix (httpRouteMatch http) =
  match httpMatch this with
  | Some m => prefix (requestMatch (HttpGatewayRouteMatch_bind m scope))
  | None => Some "/"
  end.
Proof.
  intros Hb Ho. apply HttpGatewayRouteSpec_bind_Return in Hb as (h & -> & Hp & _).
  unfold httpOutput in Ho; cbn in Ho.
  destruct (routeType this); cbn in Ho; inversion Ho; subst; exact Hp.
Qed.

(** C1 (code at the failing input): the HTTP spec whose match is
    [HttpGatewayRouteMatch.method(Method.GET, {})] supplies neither a prefix
    nor a path; [bind] succeeds on it and the compiled match has no prefix
    at all, and no path either. *)
Theorem method_only_match_gets_no_default_prefix
  (routeTarget : IVirtualService) (scope : Construct) :
  exists config http,
    GatewayRouteSpec_bind (methodOnlySpec routeTarget) scope = Return config
    /\ httpSpecConfig config = Some http
    /\ prefix (httpRouteMatch http) = None
    /\ path (httpRouteMatch http) = None.
Proof. do 2 eexists. repeat split. Qed.

(** ** Output slots *)

(** C2: when [bind] succeeds on a spec created by [GatewayRouteSpec.http],
    [.http2] or [.grpc], the populated output slots are exactly the one of
    that protocol. *)
Theorem bind_populates_declared_slot
  (spec : GatewayRouteSpec) (protocol : Protocol) (scope : Construct)
  (config : GatewayRouteSpecConfig) :
  CreatedWith spec protocol ->
  GatewayRouteSpec_bind spec scope = Return config ->
  populatedSlots config = [protocol].
Proof.
  intros [options|options|options] Hb; cbn [GatewayRouteSpec_bind] in Hb.
  - apply HttpGatewayRouteSpec_bind_Return in Hb as (h & -> & _). reflexivity.
  - apply HttpGatewayRouteSpec_bind_Return in Hb as (h & -> & _). reflexivity.
  - injection Hb as <-. reflexivity.
Qed.

(** ** The three guards *)

(** C3: a resolved prefix that is a non-empty string not starting with "/"
    makes [bind] fail with the prefix format error; when the resolved prefix
    is absent or starts with "/", [bind] does not fail with that error. *)
Theorem prefix_format_check (this : HttpGatewayRouteSpec) (scope : Construct) :
  (forall p,
      prefixPath this scope = Some p -> p <> "" -> String.prefix "/" p = false ->
      HttpGatewayRouteSpec_bind this scope = Throw (InvalidPrefixFormat p))
  /\ (prefixPath this scope = None
      \/ (exists p, prefixPath this scope = Some p /\ String.prefix "/" p = true) ->
      forall got, HttpGatewayRouteSpec_bind this scope <> Throw (InvalidPrefixFormat got)).
Proof.
  split.
  - intros p Hp Hne Hs.
    apply HttpGatewayRouteSpec_bind_throws_format; auto using truthy_nonempty.
  - intros Hok got Hb.
    apply HttpGatewayRouteSpec_bind_format_error in Hb as (p & Hp & _ & Hs).
    destruct Hok as [Hn | (q & Hq & Hqs)]; congruence.
Qed.

(** C4: with a prefix rewrite ([defaultPrefix] or [customPrefix]) and a
    resolved match without prefix, [bind] fails with the message that the
    prefix match must be set. *)
Theorem prefix_rewrite_requires_prefix_match
  (this : HttpGatewayRouteSpec) (scope : Construct) (r : HttpGatewayRouteRewrite) :
  httpRewrite this = Some r ->
  PrefixRewriteAction r ->
  prefixPath this scope = None ->
  HttpGatewayRouteSpec_bind this scope = Throw PrefixRewriteRequiresPrefixMatch.
Proof.
  intros Hr Ha Hp. apply HttpGatewayRouteSpec_bind_throws_prefix_rewrite.
  - now left.
  - unfold rewriteBoundPrefix. rewrite Hr. now apply PrefixRewriteAction_bound.
  - rewrite matchPrefix_prefixPath, Hp. now destruct (httpMatch this).
Qed.

(** C5 (amended): with a path rewrite and a supplied match that binds a
    prefix starting with "/", [bind] fails with the message that prefix match
    and path rewrite cannot both be set. *)
Theorem path_rewrite_conflicts_with_prefix_match
  (this : HttpGatewayRouteSpec) (scope : Construct)
  (m : HttpGatewayRouteMatch) (p : string) (r : HttpGatewayRouteRewrite) :
  httpMatch this = Some m ->
  prefix (requestMatch (HttpGatewayRouteMatch_bind m scope)) = Some p ->
  String.prefix "/" p = true ->
  httpRewrite this = Some r ->
  PathRewriteAction r ->
  HttpGatewayRouteSpec_bind this scope = Throw PathRewriteConflictsWithPrefixMatch.
Proof.
  intros Hm Hp Hs Hr Ha.
  assert (Hpp : prefixPath this scope = Some p) by (unfold prefixPath; now rewrite Hm).
  apply HttpGatewayRouteSpec_bind_throws_path_rewrite.
  - now exists p.
  - unfold rewriteBoundPrefix. rewrite Hr. now apply PathRewriteAction_bound.
  - unfold rewriteBoundPath. rewrite Hr. now apply PathRewriteAction_bound.
  - rewrite matchPrefix_prefixPath, Hm, Hpp. now apply truthy_starts_with_slash.
Qed.

(** ** Defaulting and the pairing checks *)

(** Without a match, the format check and the compiled output see the
    prefix "/", while both pairing checks see no prefix. *)
Lemma pairing_checks_read_undefaulted_prefix
  (this : HttpGatewayRouteSpec) (scope : Construct) :
  httpMatch this = None ->
  prefixPath this scope = Some "/" /\ matchPrefix this scope = None.
Proof. intros Hm. unfold prefixPath, matchPrefix. now rewrite Hm. Qed.

Lemma default_match_rejects_prefix_rewrite
  (this : HttpGatewayRouteSpec) (scope : Construct) (r : HttpGatewayRouteRewrite) :
  httpMatch this = None ->
  httpRewrite this = Some r ->
  PrefixRewriteAction r ->
  HttpGatewayRouteSpec_bind this scope = Throw PrefixRewriteRequiresPrefixMatch.
Proof.
  intros Hm Hr Ha.
  destruct (pairing_checks_read_undefaulted_prefix this scope Hm) as [Hp Hmp].
  apply HttpGatewayRouteSpec_bind_throws_prefix_rewrite.
  - right; right. now exists "/".
  - unfold rewriteBoundPrefix. rewrite Hr. now apply PrefixRewriteAction_bound.
  - now rewrite Hmp.
Qed.

(** Without a match, a path rewrite is let through and the compiled route
    carries the prefix match "/" next to the path rewrite. *)
Lemma default_match_accepts_path_rewrite
  (routeTarget : IVirtualService) (scope : Construct) :
  exists config http rewrite,
    GatewayRouteSpec_bind (defaultMatchPathRewriteSpec routeTarget) scope = Return config
    /\ httpSpecConfig config = Some http
    /\ prefix (httpRouteMatch http) = Some "/"
    /\ httpActionRewrite (httpRouteAction http) = Some rewrite
    /\ actionRewritePath rewrite = Some {| rewriteExact := Some "/check" |}.
Proof. do 3 eexists. repeat split. Qed.

(** C6 (code at the failing input): on the HTTP spec without a match and
    with the rewrite [HttpGatewayRouteRewrite.defaultPrefix(Default.ENABLED)],
    the format check reads the defaulted prefix "/" but the pairing checks
    read no prefix, and [bind] does not compile the spec: it throws the
    message that the prefix match must be set. *)
Theorem default_match_with_prefix_rewrite_is_rejected
  (routeTarget : IVirtualService) (scope : Construct) :
  exists this,
    defaultMatchPrefixRewriteSpec routeTarget = HttpSpec this
    /\ prefixPath this scope = Some "/"
    /\ matchPrefix this scope = None
    /\ GatewayRouteSpec_bind (defaultMatchPrefixRewriteSpec routeTarget) scope
       = Throw PrefixRewriteRequiresPrefixMatch.
Proof.
  eexists. split; [reflexivity|].
  split; [|split].
  - now apply pairing_checks_read_undefaulted_prefix.
  - now apply pairing_checks_read_undefaulted_prefix.
  - cbn [GatewayRouteSpec_bind].
    eapply default_match_rejects_prefix_rewrite;
      [reflexivity | reflexivity | apply prefix_action_default].
Qed.

(** ** gRPC specs *)

(** C7 (code at the failing input): a gRPC spec built from a service name
    match and [GrpcGatewayRouteRewrite.defaultHostname(isDefault)] compiles and
    populates the gRPC slot only, but the emitted action has no rewrite: the
    constructor never stores the rewrite of its options. *)
Theorem grpc_rewrite_is_dropped
  (serviceName : string) (options : option GrpcGatewayRouteServiceNameMatchOptions)
  (isDefault : Default) (routeTarget : IVirtualService) (scope : Construct) :
  exists config grpc,
    GatewayRouteSpec_bind (serviceNameSpec serviceName options isDefault routeTarget) scope
    = Return config
    /\ populatedSlots config = [GRPC]
    /\ grpcSpecConfig config = Some grpc
    /\ grpcServiceName (grpcRouteMatch grpc) = Some serviceName
    /\ grpcActionRewrite (grpcRouteAction grpc) = None.
Proof. do 2 eexists. repeat split. Qed.

(** ** Prefix and path never together *)

Lemma HttpGatewayRoutePathOrPrefixMatch_exactly_one
  (m : HttpGatewayRoutePathOrPrefixMatch) (scope : Construct) :
  let bound := requestMatch (HttpGatewayRoutePathOrPrefixMatch_bind m scope) in
  (prefix bound <> None /\ path bound = None) \/ (prefix bound = None /\ path bound <> None).
Proof. destruct m; cbn; [left | right]; split; congruence. Qed.

Lemma bound_prefix_or_path_absent
  (prefixOrPath : option HttpGatewayRoutePathOrPrefixMatch) (scope : Construct) :
  boundPrefix scope prefixOrPath = None \/ boundPath scope prefixOrPath = None.
Proof. destruct prefixOrPath as [[|]|]; cbn; auto. Qed.

Lemma HttpGatewayRouteMatch_prefix_or_path_absent
  (m : HttpGatewayRouteMatch) (scope : Construct) :
  let bound := requestMatch (HttpGatewayRouteMatch_bind m scope) in
  prefix bound = None \/ path bound = None.
Proof.
  destruct m as [p o|h o|h o|k o|pm o|q o]; cbn;
    auto using bound_prefix_or_path_absent.
Qed.

(** C8: no match built by one of the six entry points of
    [HttpGatewayRouteMatch] binds both a prefix and a path: a prefix match
    binds no path, a path match binds no prefix, the [prefixOrPath]
    sub-builder binds exactly one of the two, and so no compiled HTTP or HTTP2
    output has both. *)
Theorem prefix_and_path_never_both (scope : Construct) :
  (forall m : HttpGatewayRouteMatch,
      let bound := requestMatch (HttpGatewayRouteMatch_bind m scope) in
      ~ (prefix bound <> None /\ path bound <> None))
  /\ (forall p options,
         let bound := requestMatch (HttpGatewayRouteMatch_bind (HttpGatewayRouteMatch_prefix p options) scope) in
         prefix bound = Some p /\ path bound = None)
  /\ (forall pathMatch0 options,
         let bound := requestMatch (HttpGatewayRouteMatch_bind (HttpGatewayRouteMatch_path pathMatch0 options) scope) in
         prefix bound = None /\ path bound <> None)
  /\ (forall sub : HttpGatewayRoutePathOrPrefixMatch,
         let bound := requestMatch (HttpGatewayRoutePathOrPrefixMatch_bind sub scope) in
         (prefix bound <> None /\ path bound = None)
         \/ (prefix bound = None /\ path bound <> None))
  /\ (forall this config http,
         HttpGatewayRouteSpec_bind this scope = Return config ->
         httpOutput config = Some http ->
         ~ (prefix (httpRouteMatch http) <> None /\ path (httpRouteMatch http) <> None)).
Proof.
  split; [|split; [|split; [|split]]].
  - intros m bound [Hp Hq].
    destruct (HttpGatewayRouteMatch_prefix_or_path_absent m scope); contradiction.
  - intros p options. cbn. split; reflexivity.
  - intros pathMatch0 options. cbn. split; congruence.
  - intros sub. apply HttpGatewayRoutePathOrPrefixMatch_exactly_one.
  - intros this config http Hb Ho [Hp Hq].
    pose proof (compiled_prefix _ _ _ _ Hb Ho) as Hprefix.
    apply HttpGatewayRouteSpec_bind_Return in Hb as (h & -> & _ & Hpath & _).
    assert (h = http) as ->
      by (unfold httpOutput in Ho; cbn in Ho; destruct (routeType this);
          cbn in Ho; congruence).
    rewrite Hprefix in Hp. rewrite Hpath in Hq.
    destruct (httpMatch this) as [m|]; cbn in Hq; [|congruence].
    destruct (HttpGatewayRouteMatch_prefix_or_path_absent m scope); contradiction.
Qed.

(** ** Host name rewrites *)

(** C10: a rewrite made by the [path], [defaultPrefix] or [customPrefix]
    entry point always binds a host name record, whose
    [defaultTargetHostname] is the one of the options (undefined when left
    out), and every HTTP or HTTP2 output compiled with such a rewrite carries
    that record in its action's rewrite. *)
Theorem path_and_prefix_rewrites_bind_hostname
  (r : HttpGatewayRouteRewrite) (options : option HttpGatewayRoutePrefixRewriteOptions)
  (scope : Construct) :
  FromPathOrPrefixEntry r options ->
  rewriteHostname (HttpGatewayRouteRewrite_bind r scope)
  = Some {| defaultTargetHostname := chain options optDefaultTargetHostname |}
  /\ forall this config http,
      httpRewrite this = Some r ->
      HttpGatewayRouteSpec_bind this scope = Return config ->
      httpOutput config = Some http ->
      exists rewrite,
        httpActionRewrite (httpRouteAction http) = Some rewrite
        /\ actionRewriteHostname rewrite
           = Some {| defaultTargetHostname := chain options optDefaultTargetHostname |}.
Proof.
  intros He.
  assert (Hh : rewriteHostname (HttpGatewayRouteRewrite_bind r scope)
               = Some {| defaultTargetHostname := chain options optDefaultTargetHostname |})
    by (destruct He; reflexivity).
  split; [exact Hh|].
  intros this config http Hr Hb Ho.
  apply HttpGatewayRouteSpec_bind_Return in Hb as (h & -> & _ & _ & Hrw).
  assert (h = http) as ->
    by (unfold httpOutput in Ho; cbn in Ho; destruct (routeType this);
        cbn in Ho; congruence).
  rewrite Hr in Hrw; cbn in Hrw. eexists; split; [exact Hrw | exact Hh].
Qed.

End Properties.

Section TlsValidationProperties.
Context {env : Environment}.

(** C9: [bind] of a trust made by [TlsValidationTrust.acm] throws exactly
    when the list of certificate authorities is empty; on a non-empty list it
    returns the trust whose [acm.certificateAuthorityArns] are the ARNs of the
    authorities, in the order given. *)
Theorem acm_trust_bind (props : TlsValidationAcmTrustOptions) (scope : Construct) :
  ((exists message,
       TlsValidationTrust_bind (TlsValidationTrust_acm props) scope = Throw message)
   <-> certificateAuthorities props = [])
  /\ (certificateAuthorities props <> [] ->
      TlsValidationTrust_bind (TlsValidationTrust_acm props) scope
      = Return
          {| tlsValidationTrust :=
               {| acm :=
                    Some {| certificateAuthorityArns :=
                              map certificateAuthorityArn (certificateAuthorities props) |};
                  file := None;
                  sds := None |} |}).
Proof.
  unfold TlsValidationTrust_acm. cbn [TlsValidationTrust_bind].
  destruct (certificateAuthorities props) as [|authority rest]; cbn.
  - split; [split; [reflexivity | now exists MissingCertificateAuthority] | congruence].
  - split; [split; [intros [message H]; discriminate | discriminate] | reflexivity].
Qed.

End TlsValidationProperties.

(** * The properties on concrete inputs *)

(** The method-only HTTP spec compiles into the HTTP slot alone. *)
Lemma bind_populates_declared_slot_run :
  exists config,
    GatewayRouteSpec_bind (methodOnlySpec sampleTarget) sampleScope = Return config
    /\ populatedSlots config = [HTTP].
Proof.
  eexists. split; [reflexivity|].
  apply (bind_populates_declared_slot (methodOnlySpec sampleTarget) HTTP sampleScope).
  - exact (created_http _).
  - reflexivity.
Defined.

(** Match prefix "api" is refused by the format check, "/api" is not. *)
Lemma prefix_format_check_run :
  HttpGatewayRouteSpec_bind (prefixMatchPathRewriteSpec "api" HTTP sampleTarget) sampleScope
  = Throw (InvalidPrefixFormat "api")
  /\ forall got,
      HttpGatewayRouteSpec_bind (prefixMatchPathRewriteSpec "/api" HTTP sampleTarget) sampleScope
      <> Throw (InvalidPrefixFormat got).
Proof.
  split.
  - apply (proj1 (prefix_format_check _ sampleScope) "api");
      [reflexivity | discriminate | reflexivity].
  - apply (proj2 (prefix_format_check _ sampleScope)).
    right. exists "/api". split; reflexivity.
Defined.

(** A path match paired with a default prefix rewrite is refused. *)
Lemma prefix_rewrite_requires_prefix_match_run :
  HttpGatewayRouteSpec_bind
    (pathMatchSpec (Some (HttpGatewayRouteRewrite_defaultPrefix ENABLED None)) HTTP sampleTarget)
    sampleScope
  = Throw PrefixRewriteRequiresPrefixMatch.
Proof.
  apply (prefix_rewrite_requires_prefix_match _ sampleScope
           (HttpGatewayRouteRewrite_defaultPrefix ENABLED None)).
  - reflexivity.
  - exact (prefix_action_default ENABLED None).
  - reflexivity.
Defined.

(** The prefix match "/api" paired with a path rewrite is refused. *)
Lemma path_rewrite_conflicts_with_prefix_match_run :
  HttpGatewayRouteSpec_bind (prefixMatchPathRewriteSpec "/api" HTTP sampleTarget) sampleScope
  = Throw PathRewriteConflictsWithPrefixMatch.
Proof.
  apply (path_rewrite_conflicts_with_prefix_match _ sampleScope
           (HttpGatewayRouteMatch_prefix "/api" None) "/api"
           (HttpGatewayRouteRewrite_path "/check" None)).
  - reflexivity.
  - reflexivity.
  - reflexivity.
  - reflexivity.
  - exact (path_action "/check" None).
Defined.

(** C5 (counterexample): the HTTP spec with match
    [HttpGatewayRouteMatch.prefix('api')] and rewrite
    [HttpGatewayRouteRewrite.path('/check')] has a path rewrite and a resolved
    prefix, yet [bind] fails with the prefix format error, not with the
    message that prefix match and path rewrite cannot both be set. *)
Lemma path_rewrite_with_malformed_prefix :
  let this := prefixMatchPathRewriteSpec "api" HTTP sampleTarget in
  (exists r, httpRewrite this = Some r /\ PathRewriteAction r)
  /\ prefixPath this sampleScope = Some "api"
  /\ HttpGatewayRouteSpec_bind this sampleScope = Throw (InvalidPrefixFormat "api")
  /\ HttpGatewayRouteSpec_bind this sampleScope <> Throw PathRewriteConflictsWithPrefixMatch.
Proof.
  cbn zeta. split; [|split; [|split]].
  - eexists. split; [reflexivity | exact (path_action "/check" None)].
  - reflexivity.
  - reflexivity.
  - discriminate.
Qed.

(** The HTTP2 route compiled from a path match has a path and no prefix. *)
Lemma prefix_and_path_never_both_run :
  exists config http,
    HttpGatewayRouteSpec_bind
      (pathMatchSpec (Some (HttpGatewayRouteRewrite_path "/check" None)) HTTP2 sampleTarget)
      sampleScope
    = Return config
    /\ httpOutput config = Some http
    /\ ~ (prefix (httpRouteMatch http) <> None /\ path (httpRouteMatch http) <> None).
Proof.
  do 2 eexists. split; [reflexivity|]. split; [reflexivity|].
  eapply (proj2 (proj2 (proj2 (proj2 (prefix_and_path_never_both sampleScope))))
            (pathMatchSpec (Some (HttpGatewayRouteRewrite_path "/check" None)) HTTP2 sampleTarget)).
  - reflexivity.
  - reflexivity.
Defined.

(** One authority binds to its ARN; no authority throws. *)
Lemma acm_trust_bind_run :
  TlsValidationTrust_bind
    (TlsValidationTrust_acm {| certificateAuthorities := [sampleAuthority] |}) sampleScope
  = Return
      {| tlsValidationTrust :=
           {| acm := Some {| certificateAuthorityArns := [sampleAuthority] |};
              file := None; sds := None |} |}
  /\ exists message,
      TlsValidationTrust_bind
        (TlsValidationTrust_acm {| certificateAuthorities := [] |}) sampleScope
      = Throw message.
Proof.
  split.
  - apply (proj2 (acm_trust_bind {| certificateAuthorities := [sampleAuthority] |} sampleScope)).
    discriminate.
  - apply (proj1 (acm_trust_bind {| certificateAuthorities := [] |} sampleScope)).
    reflexivity.
Defined.

(** A path rewrite without options still binds, and compiles to, a host
    name record. *)
Lemma path_and_prefix_rewrites_bind_hostname_run :
  rewriteHostname
    (HttpGatewayRouteRewrite_bind (HttpGatewayRouteRewrite_path "/check" None) sampleScope)
  = Some {| defaultTargetHostname := None |}
  /\ exists config http rewrite,
      HttpGatewayRouteSpec_bind
        (pathMatchSpec (Some (HttpGatewayRouteRewrite_path "/check" None)) HTTP2 sampleTarget)
        sampleScope
      = Return config
      /\ httpOutput config = Some http
      /\ httpActionRewrite (httpRouteAction http) = Some rewrite
      /\ actionRewriteHostname rewrite = Some {| defaultTargetHostname := None |}.
Proof.
  split.
  - apply (proj1 (path_and_prefix_rewrites_bind_hostname
                    (HttpGatewayRouteRewrite_path "/check" None) None sampleScope
                    (entry_path "/check" None))).
  - destruct (proj2 (path_and_prefix_rewrites_bind_hostname
                       (HttpGatewayRouteRewrite_path "/check" None) None sampleScope
                       (entry_path "/check" None))
                (pathMatchSpec (Some (HttpGatewayRouteRewrite_path "/check" None)) HTTP2
                   sampleTarget)
                _ _ eq_refl eq_refl eq_refl) as (rewrite & Hrw & Hh).
    do 3 eexists. split; [reflexivity|]. split; [reflexivity|]. split; [exact Hrw | exact Hh].
Defined.

(** * Further properties of the gateway route compiler *)

Section CompiledRoutes.
Context {env : Environment}.

(** A successful [bind] returns [httpConfig] in the slot of the route type. *)
Lemma HttpGatewayRouteSpec_bind_httpConfig
  (this : HttpGatewayRouteSpec) (scope : Construct) (config : GatewayRouteSpecConfig) :
  HttpGatewayRouteSpec_bind this scope = Return config ->
  config =
    {| httpSpecConfig :=
         if Protocol_eqb (routeType this) HTTP then Some (httpConfig this scope) else None;
       http2SpecConfig :=
         if Protocol_eqb (routeType this) HTTP2 then Some (httpConfig this scope) else None;
       grpcSpecConfig := None |}.
Proof.
  unfold HttpGatewayRouteSpec_bind.
  destruct (prefixPath this scope) as [p|] eqn:Hp;
    [destruct (truthy (Some p) && firstCharIsNot p "/"); [discriminate|] |];
    cbn [throwIf result_bind];
    (destruct (defined (rewriteBoundPrefix this scope) && negb (truthy (matchPrefix this scope)));
       [discriminate|]);
    (destruct (defined (rewriteBoundPath this scope) && truthy (matchPrefix this scope));
       [discriminate|]);
    cbn [throwIf result_bind]; intros [= <-];
    unfold httpConfig; rewrite Hp; reflexivity.
Qed.

Lemma httpOutput_httpConfig
  (this : HttpGatewayRouteSpec) (scope : Construct) (config : GatewayRouteSpecConfig)
  (http : HttpGatewayRouteProperty) :
  HttpGatewayRouteSpec_bind this scope = Return config ->
  httpOutput config = Some http ->
  http = httpConfig this scope.
Proof.
  intros Hb Ho. apply HttpGatewayRouteSpec_bind_httpConfig in Hb. subst config.
  unfold httpOutput in Ho; cbn in Ho.
  destruct (routeType this); cbn in Ho; congruence.
Qed.

(** [bind] in closed form: the three guards in order, then the route. *)
Lemma HttpGatewayRouteSpec_bind_closed_form (this : HttpGatewayRouteSpec) (scope : Construct) :
  HttpGatewayRouteSpec_bind this scope =
  let rest :=
    if defined (rewriteBoundPrefix this scope) && negb (truthy (matchPrefix this scope))
    then Throw PrefixRewriteRequiresPrefixMatch
    else if defined (rewriteBoundPath this scope) && truthy (matchPrefix this scope)
    then Throw PathRewriteConflictsWithPrefixMatch
    else
      Return
        {| httpSpecConfig :=
             if Protocol_eqb (routeType this) HTTP then Some (httpConfig this scope) else None;
           http2SpecConfig :=
             if Protocol_eqb (routeType this) HTTP2 then Some (httpConfig this scope) else None;
           grpcSpecConfig := None |} in
  match prefixPath this scope with
  | Some p =>
      if truthy (Some p) && negb (String.prefix "/" p)
      then Throw (InvalidPrefixFormat p)
      else rest
  | None => rest
  end.
Proof.
  cbv zeta. unfold HttpGatewayRouteSpec_bind, httpConfig.
  destruct (prefixPath this scope) as [p|];
    [rewrite firstCharIsNot_slash;
     destruct (truthy (Some p) && negb (String.prefix "/" p)); [reflexivity|] |];
    cbn [throwIf result_bind];
    (destruct (defined (rewriteBoundPrefix this scope) && negb (truthy (matchPrefix this scope)));
       [reflexivity|]);
    (destruct (defined (rewriteBoundPath this scope) && truthy (matchPrefix this scope));
       reflexivity).
Qed.

(** X3: [HttpGatewayRouteSpec.bind] returns a configuration exactly when
    the resolved prefix is absent, empty or starts with "/", a prefix rewrite
    comes with a non-empty prefix bound by the supplied match, and a path
    rewrite comes without one. *)
Theorem bind_succeeds_iff (this : HttpGatewayRouteSpec) (scope : Construct) :
  (exists config, HttpGatewayRouteSpec_bind this scope = Return config)
  <-> (forall p, prefixPath this scope = Some p -> p = "" \/ String.prefix "/" p = true)
      /\ (rewriteBoundPrefix this scope <> None -> truthy (matchPrefix this scope) = true)
      /\ (rewriteBoundPath this scope <> None -> truthy (matchPrefix this scope) = false).
Proof.
  rewrite HttpGatewayRouteSpec_bind_closed_form. cbv zeta.
  assert (Hrest :
    (exists config,
        (if defined (rewriteBoundPrefix this scope) && negb (truthy (matchPrefix this scope))
         then Throw PrefixRewriteRequiresPrefixMatch
         else if defined (rewriteBoundPath this scope) && truthy (matchPrefix this scope)
         then Throw PathRewriteConflictsWithPrefixMatch
         else
           Return
             {| httpSpecConfig :=
                  if Protocol_eqb (routeType this) HTTP
                  then Some (httpConfig this scope) else None;
                http2SpecConfig :=
                  if Protocol_eqb (routeType this) HTTP2
                  then Some (httpConfig this scope) else None;
                grpcSpecConfig := None |}) = Return config)
    <-> (rewriteBoundPrefix this scope <> None -> truthy (matchPrefix this scope) = true)
        /\ (rewriteBoundPath this scope <> None -> truthy (matchPrefix this scope) = false)).
  { destruct (rewriteBoundPrefix this scope) as [rp|],
             (rewriteBoundPath this scope) as [rq|],
             (truthy (matchPrefix this scope)); cbn; split;
      try (intros [config H]; discriminate);
      try (intros [H1 H2]; first [ now discriminate H1 | now discriminate H2 ]);
      try (intros _; split; congruence);
      try (intros _; eexists; reflexivity). }
  destruct (prefixPath this scope) as [p|].
  - destruct p as [|c rest].
    + cbn [truthy andb]. rewrite Hrest. split.
      * intros H. split; [intros p [= <-]; now left | exact H].
      * intros [_ H]. exact H.
    + cbn [truthy andb]. destruct (String.prefix "/" (String c rest)) eqn:Hs; cbn [negb].
      * rewrite Hrest. split.
        -- intros H. split; [intros p [= <-]; now right | exact H].
        -- intros [_ H]. exact H.
      * split.
        -- intros [config H]. discriminate.
        -- intros [H _]. destruct (H _ eq_refl) as [H0|H0]; [discriminate | congruence].
  - rewrite Hrest. split.
    + intros H. split; [intros p [=] | exact H].
    + intros [_ H]. exact H.
Qed.

(** X1: when a match is supplied and [bind] succeeds, the compiled route
    carries the bound match unchanged, field for field, the name of the
    route target, and the three parts of the bound rewrite if there is one. *)
Theorem compiled_route_with_match
  (this : HttpGatewayRouteSpec) (scope : Construct) (m : HttpGatewayRouteMatch)
  (config : GatewayRouteSpecConfig) (http : HttpGatewayRouteProperty) :
  httpMatch this = Some m ->
  HttpGatewayRouteSpec_bind this scope = Return config ->
  httpOutput config = Some http ->
  http =
    {| httpRouteMatch := requestMatch (HttpGatewayRouteMatch_bind m scope);
       httpRouteAction :=
         {| httpTarget :=
              {| virtualService :=
                   {| targetVirtualServiceName := virtualServiceName (httpRouteTarget this) |} |};
            httpActionRewrite :=
              option_map
                (fun r =>
                   {| actionRewriteHostname :=
                        rewriteHostname (HttpGatewayRouteRewrite_bind r scope);
                      actionRewritePath := rewritePath (HttpGatewayRouteRewrite_bind r scope);
                      actionRewritePrefix :=
                        rewritePrefix (HttpGatewayRouteRewrite_bind r scope) |})
                (httpRewrite this) |} |}.
Proof.
  intros Hm Hb Ho. rewrite (httpOutput_httpConfig _ _ _ _ Hb Ho).
  unfold httpConfig, prefixPath. rewrite Hm. cbn [chain].
  destruct (requestMatch (HttpGatewayRouteMatch_bind m scope)).
  now destruct (httpRewrite this).
Qed.

(** X2: when no match is supplied and [bind] succeeds, the compiled match
    is the prefix match "/" and nothing else. *)
Theorem compiled_route_without_match
  (this : HttpGatewayRouteSpec) (scope : Construct)
  (config : GatewayRouteSpecConfig) (http : HttpGatewayRouteProperty) :
  httpMatch this = None ->
  HttpGatewayRouteSpec_bind this scope = Return config ->
  httpOutput config = Some http ->
  httpRouteMatch http =
    {| prefix := Some "/"; path := None; headers := None; hostname := None;
       method := None; queryParameters := None |}
  /\ httpCriteria (httpRouteMatch http) = 1.
Proof.
  intros Hm Hb Ho. rewrite (httpOutput_httpConfig _ _ _ _ Hb Ho).
  unfold httpConfig, prefixPath. rewrite Hm. split; reflexivity.
Qed.

(** X4: the HTTP and the HTTP2 spec made from the same options compile
    alike: both throw the same message, or both return, the same route, each
    in its own slot only. *)
Theorem http_and_http2_compile_alike
  (options : HttpGatewayRouteSpecOptions) (scope : Construct) :
  match GatewayRouteSpec_bind (GatewayRouteSpec_http options) scope,
        GatewayRouteSpec_bind (GatewayRouteSpec_http2 options) scope with
  | Return c1, Return c2 =>
      httpSpecConfig c1 <> None
      /\ httpSpecConfig c1 = http2SpecConfig c2
      /\ http2SpecConfig c1 = None /\ httpSpecConfig c2 = None
      /\ grpcSpecConfig c1 = None /\ grpcSpecConfig c2 = None
  | Throw message1, Throw message2 => message1 = message2
  | _, _ => False
  end.
Proof.
  cbn [GatewayRouteSpec_bind GatewayRouteSpec_http GatewayRouteSpec_http2].
  rewrite !HttpGatewayRouteSpec_bind_closed_form. cbv zeta.
  change (prefixPath (new_HttpGatewayRouteSpec options HTTP2) scope)
    with (prefixPath (new_HttpGatewayRouteSpec options HTTP) scope).
  change (rewriteBoundPrefix (new_HttpGatewayRouteSpec options HTTP2) scope)
    with (rewriteBoundPrefix (new_HttpGatewayRouteSpec options HTTP) scope).
  change (rewriteBoundPath (new_HttpGatewayRouteSpec options HTTP2) scope)
    with (rewriteBoundPath (new_HttpGatewayRouteSpec options HTTP) scope).
  change (matchPrefix (new_HttpGatewayRouteSpec options HTTP2) scope)
    with (matchPrefix (new_HttpGatewayRouteSpec options HTTP) scope).
  change (httpConfig (new_HttpGatewayRouteSpec options HTTP2) scope)
    with (httpConfig (new_HttpGatewayRouteSpec options HTTP) scope).
  destruct (prefixPath (new_HttpGatewayRouteSpec options HTTP) scope) as [p|];
    [destruct (truthy (Some p) && negb (String.prefix "/" p)); [reflexivity|] |];
    (destruct (defined (rewriteBoundPrefix (new_HttpGatewayRouteSpec options HTTP) scope)
               && negb (truthy (matchPrefix (new_HttpGatewayRouteSpec options HTTP) scope)));
       [reflexivity|]);
    (destruct (defined (rewriteBoundPath (new_HttpGatewayRouteSpec options HTTP) scope)
               && truthy (matchPrefix (new_HttpGatewayRouteSpec options HTTP) scope));
       [reflexivity|]);
    cbn; repeat split; congruence.
Qed.

(** X5: a supplied match that binds a prefix starting with "/", paired with
    a prefix rewrite, compiles: the route keeps the prefix and carries the
    prefix rewrite, without a path rewrite. *)
Theorem prefix_match_accepts_prefix_rewrite
  (this : HttpGatewayRouteSpec) (scope : Construct)
  (m : HttpGatewayRouteMatch) (p : string) (r : HttpGatewayRouteRewrite) :
  httpMatch this = Some m ->
  prefix (requestMatch (HttpGatewayRouteMatch_bind m scope)) = Some p ->
  String.prefix "/" p = true ->
  httpRewrite this = Some r ->
  PrefixRewriteAction r ->
  exists config rewrite,
    HttpGatewayRouteSpec_bind this scope = Return config
    /\ (forall http, httpOutput config = Some http ->
          prefix (httpRouteMatch http) = Some p
          /\ httpActionRewrite (httpRouteAction http) = Some rewrite)
    /\ actionRewritePrefix rewrite = rewritePrefix (HttpGatewayRouteRewrite_bind r scope)
    /\ actionRewritePrefix rewrite <> None
    /\ actionRewritePath rewrite = None.
Proof.
  intros Hm Hp Hs Hr Ha.
  destruct (PrefixRewriteAction_bound r scope Ha) as [Hdef Hpath].
  assert (Hpp : prefixPath this scope = Some p) by (unfold prefixPath; now rewrite Hm).
  assert (Hmp : matchPrefix this scope = Some p) by (unfold matchPrefix; now rewrite Hm).
  destruct (proj2 (bind_succeeds_iff this scope)) as [config Hb].
  { split; [|split].
    - intros q Hq. right. congruence.
    - intros _. rewrite Hmp. now apply truthy_starts_with_slash.
    - unfold rewriteBoundPath. rewrite Hr. cbn [chain]. now rewrite Hpath. }
  exists config. eexists. split; [exact Hb|]. split; [|split; [|split]].
  - intros http Ho. rewrite (compiled_route_with_match _ _ _ _ _ Hm Hb Ho). cbn.
    rewrite Hr. cbn [option_map]. split; [exact Hp | reflexivity].
  - reflexivity.
  - cbn. destruct (rewritePrefix (HttpGatewayRouteRewrite_bind r scope)); [discriminate|].
    discriminate Hdef.
  - exact Hpath.
Qed.

(** X6: a supplied match that binds no prefix, paired with a path rewrite,
    compiles, and the route carries the path rewrite without a prefix
    rewrite. *)
Theorem prefixless_match_accepts_path_rewrite
  (this : HttpGatewayRouteSpec) (scope : Construct)
  (m : HttpGatewayRouteMatch) (r : HttpGatewayRouteRewrite) :
  httpMatch this = Some m ->
  prefix (requestMatch (HttpGatewayRouteMatch_bind m scope)) = None ->
  httpRewrite this = Some r ->
  PathRewriteAction r ->
  exists config rewrite,
    HttpGatewayRouteSpec_bind this scope = Return config
    /\ (forall http, httpOutput config = Some http ->
          prefix (httpRouteMatch http) = None
          /\ httpActionRewrite (httpRouteAction http) = Some rewrite)
    /\ actionRewritePath rewrite = rewritePath (HttpGatewayRouteRewrite_bind r scope)
    /\ actionRewritePath rewrite <> None
    /\ actionRewritePrefix rewrite = None.
Proof.
  intros Hm Hp Hr Ha.
  destruct (PathRewriteAction_bound r scope Ha) as [Hdef Hprefix].
  assert (Hpp : prefixPath this scope = None) by (unfold prefixPath; now rewrite Hm).
  assert (Hmp : matchPrefix this scope = None) by (unfold matchPrefix; now rewrite Hm).
  destruct (proj2 (bind_succeeds_iff this scope)) as [config Hb].
  { split; [|split].
    - intros q Hq. congruence.
    - unfold rewriteBoundPrefix. rewrite Hr. cbn [chain]. now rewrite Hprefix.
    - intros _. now rewrite Hmp. }
  exists config. eexists. split; [exact Hb|]. split; [|split; [|split]].
  - intros http Ho. rewrite (compiled_route_with_match _ _ _ _ _ Hm Hb Ho). cbn.
    rewrite Hr. cbn [option_map]. split; [exact Hp | reflexivity].
  - reflexivity.
  - cbn. destruct (rewritePath (HttpGatewayRouteRewrite_bind r scope)); [discriminate|].
    discriminate Hdef.
  - exact Hprefix.
Qed.

(** X7: an empty resolved prefix is treated by all three guards as no
    prefix at all.  [bind] then succeeds exactly when the rewrite carries no
    prefix rewrite, it throws the message that the prefix match must be set
    when it carries one, and on success the compiled prefix is the empty
    string. *)
Theorem empty_prefix_counts_as_no_prefix (this : HttpGatewayRouteSpec) (scope : Construct) :
  prefixPath this scope = Some "" ->
  ((exists config, HttpGatewayRouteSpec_bind this scope = Return config)
   <-> rewriteBoundPrefix this scope = None)
  /\ (rewriteBoundPrefix this scope <> None ->
      HttpGatewayRouteSpec_bind this scope = Throw PrefixRewriteRequiresPrefixMatch)
  /\ (forall config http,
         HttpGatewayRouteSpec_bind this scope = Return config ->
         httpOutput config = Some http ->
         prefix (httpRouteMatch http) = Some "").
Proof.
  intros Hp.
  assert (Hmp : truthy (matchPrefix this scope) = false).
  { rewrite matchPrefix_prefixPath, Hp. now destruct (httpMatch this). }
  split; [|split].
  - rewrite bind_succeeds_iff, Hmp. split.
    + intros (_ & H & _). destruct (rewriteBoundPrefix this scope); [|reflexivity].
      now discriminate H.
    + intros Hr. split; [|split].
      * intros p Hq. left. congruence.
      * intros H. contradiction.
      * reflexivity.
  - intros Hr. apply HttpGatewayRouteSpec_bind_throws_prefix_rewrite; auto.
    now destruct (rewriteBoundPrefix this scope).
  - intros config http Hb Ho. rewrite (httpOutput_httpConfig _ _ _ _ Hb Ho). exact Hp.
Qed.

End CompiledRoutes.

Section Builders.
Context {env : Environment}.

(** X8: no bound HTTP rewrite has both a path and a prefix part, and every
    one has a host name part; so the rewrite of a compiled route never has
    both a path and a prefix, and always has a host name. *)
Theorem rewrite_path_and_prefix_never_both (scope : Construct) :
  (forall r : HttpGatewayRouteRewrite,
      let bound := HttpGatewayRouteRewrite_bind r scope in
      (rewritePath bound = None \/ rewritePrefix bound = None)
      /\ rewriteHostname bound <> None)
  /\ (forall this config http rewrite,
         HttpGatewayRouteSpec_bind this scope = Return config ->
         httpOutput config = Some http ->
         httpActionRewrite (httpRouteAction http) = Some rewrite ->
         (actionRewritePath rewrite = None \/ actionRewritePrefix rewrite = None)
         /\ actionRewriteHostname rewrite <> None).
Proof.
  assert (Hr : forall r : HttpGatewayRouteRewrite,
             (rewritePath (HttpGatewayRouteRewrite_bind r scope) = None
              \/ rewritePrefix (HttpGatewayRouteRewrite_bind r scope) = None)
             /\ rewriteHostname (HttpGatewayRouteRewrite_bind r scope) <> None).
  { intros [d [[[[e|q]|]]|]|e o|q o]; cbn; split; auto; discriminate. }
  split; [exact Hr|].
  intros this config http rewrite Hb Ho Hrw.
  rewrite (httpOutput_httpConfig _ _ _ _ Hb Ho) in Hrw. cbn in Hrw.
  destruct (httpRewrite this) as [r|]; [|discriminate].
  injection Hrw as <-. cbn. apply Hr.
Qed.

(** X9: [GrpcGatewayRouteSpec.bind] never throws.  It populates the gRPC
    slot alone, with the bound match unchanged, and that match defines at
    least one of host name, metadata and service name. *)
Theorem grpc_bind_always_returns (this : GrpcGatewayRouteSpec) (scope : Construct) :
  exists config grpc,
    GrpcGatewayRouteSpec_bind this scope = Return config
    /\ populatedSlots config = [GRPC]
    /\ grpcSpecConfig config = Some grpc
    /\ grpcRouteMatch grpc = grpcRequestMatch (GrpcGatewayRouteMatch_bind (grpcMatch this) scope)
    /\ 1 <= grpcCriteria (grpcRouteMatch grpc)
    /\ targetVirtualServiceName (virtualService (grpcTarget (grpcRouteAction grpc)))
       = virtualServiceName (grpcRouteTarget this).
Proof.
  do 2 eexists. split; [reflexivity|]. repeat split.
  cbn [grpcRouteMatch]. unfold grpcCriteria.
  destruct (grpcMatch this) as [h o|ms o|n o];
    cbn [GrpcGatewayRouteMatch_bind grpcRequestMatch grpcHostname grpcMetadata
         grpcServiceName defined];
    repeat match goal with
           | |- context [if defined ?x then 1 else 0] => destruct (defined x)
           end; cbn; auto using le_n_S, le_0_n.
Qed.

(** X10: every match built by an entry point of [HttpGatewayRouteMatch]
    binds at least one criterion: the one of its entry point is always
    defined, also when the list of headers or of query parameters is empty. *)
Theorem http_match_binds_its_criterion (scope : Construct) :
  (forall m : HttpGatewayRouteMatch,
      1 <= httpCriteria (requestMatch (HttpGatewayRouteMatch_bind m scope)))
  /\ (forall hs options,
         headers (requestMatch (HttpGatewayRouteMatch_bind
                                  (HttpGatewayRouteMatch_header hs options) scope))
         = Some (map (fun h => httpRouteHeader h scope) hs))
  /\ (forall qs options,
         option_map (@length _)
           (queryParameters (requestMatch (HttpGatewayRouteMatch_bind
                                             (HttpGatewayRouteMatch_queryParameters qs options)
                                             scope)))
         = Some (length qs))
  /\ (forall k options,
         method (requestMatch (HttpGatewayRouteMatch_bind
                                 (HttpGatewayRouteMatch_method k options) scope))
         = Some k).
Proof.
  split; [|split; [|split]].
  - intros m. unfold httpCriteria.
    destruct m as [p o|h o|h o|k o|pm o|q o]; cbn [HttpGatewayRouteMatch_bind requestMatch
      prefix path headers hostname method queryParameters defined];
      repeat match goal with
             | |- context [if defined ?x then 1 else 0] => destruct (defined x)
             end; cbn; auto using le_n_S, le_0_n.
  - reflexivity.
  - intros qs options. cbn. unfold bindQueryParameters. now rewrite length_map.
  - reflexivity.
Qed.

(** X11: the entry points converge.  A match made by the method, host
    name, header or query parameter entry point with a [prefixOrPath] binds to
    the same match as the prefix, respectively path, entry point carrying the
    same criteria. *)
Theorem entry_points_converge (scope : Construct)
  (p : string) (pm : HttpPathMatch)
  (hs : option (list HttpHeaderMatch)) (hn : option GatewayRouteHostname)
  (k : option Method) (qs : option (list QueryParameterMatch))
  (hs1 : list HttpHeaderMatch) (hn1 : GatewayRouteHostname) (k1 : Method)
  (qs1 : list QueryParameterMatch) :
  let viaPrefix headers0 hostname0 method0 queryParameters0 :=
    HttpGatewayRouteMatch_bind
      (HttpGatewayRouteMatch_prefix p
         (Some {| prefixOptHeaders := headers0; prefixOptHostname := hostname0;
                  prefixOptMethod := method0;
                  prefixOptQueryParameters := queryParameters0 |})) scope in
  let viaPath headers0 hostname0 method0 queryParameters0 :=
    HttpGatewayRouteMatch_bind
      (HttpGatewayRouteMatch_path pm
         {| pathOptHeaders := headers0; pathOptMethod := method0;
            pathOptHostname := hostname0;
            pathOptQueryParameters := queryParameters0 |}) scope in
  let sub1 := Some (HttpGatewayRoutePathOrPrefixMatch_prefix p) in
  let sub2 := Some (HttpGatewayRoutePathOrPrefixMatch_path pm) in
  let viaMethod sub :=
    HttpGatewayRouteMatch_bind
      (HttpGatewayRouteMatch_method k1
         {| methodOptHeaders := hs; methodOptHostname := hn;
            methodOptQueryParameters := qs; methodOptPrefixOrPath := sub |}) scope in
  let viaHostname sub :=
    HttpGatewayRouteMatch_bind
      (HttpGatewayRouteMatch_hostname hn1
         {| hostnameOptHeaders := hs; hostnameOptMethod := k;
            hostnameOptQueryParameters := qs; hostnameOptPrefixOrPath := sub |}) scope in
  let viaHeader sub :=
    HttpGatewayRouteMatch_bind
      (HttpGatewayRouteMatch_header hs1
         (Some {| headerOptHostname := hn; headerOptMethod := k;
                  headerOptQueryParameters := qs; headerOptPrefixOrPath := sub |})) scope in
  let viaQuery sub :=
    HttpGatewayRouteMatch_bind
      (HttpGatewayRouteMatch_queryParameters qs1
         {| queryOptHeaders := hs; queryOptHostname := hn;
            queryOptMethod := k; queryOptPrefixOrPath := sub |}) scope in
  (viaMethod sub1 = viaPrefix hs hn (Some k1) qs
   /\ viaHostname sub1 = viaPrefix hs (Some hn1) k qs
   /\ viaHeader sub1 = viaPrefix (Some hs1) hn k qs
   /\ viaQuery sub1 = viaPrefix hs hn k (Some qs1))
  /\ (viaMethod sub2 = viaPath hs hn (Some k1) qs
      /\ viaHostname sub2 = viaPath hs (Some hn1) k qs
      /\ viaHeader sub2 = viaPath (Some hs1) hn k qs
      /\ viaQuery sub2 = viaPath hs hn k (Some qs1)).
Proof. cbv zeta. repeat split. Qed.

(** X12: [HttpGatewayRouteSpec.bind] depends on the supplied match only
    through what the match binds: two specs that differ in matches binding
    the same request match compile to the same result. *)
Theorem bind_depends_on_bound_match
  (m1 m2 : HttpGatewayRouteMatch) (routeTarget : IVirtualService) (protocol : Protocol)
  (rewrite : option HttpGatewayRouteRewrite) (scope : Construct) :
  requestMatch (HttpGatewayRouteMatch_bind m1 scope)
  = requestMatch (HttpGatewayRouteMatch_bind m2 scope) ->
  HttpGatewayRouteSpec_bind
    {| httpMatch := Some m1; httpRouteTarget := routeTarget;
       routeType := protocol; httpRewrite := rewrite |} scope
  = HttpGatewayRouteSpec_bind
      {| httpMatch := Some m2; httpRouteTarget := routeTarget;
         routeType := protocol; httpRewrite := rewrite |} scope.
Proof.
  intros H.
  unfold HttpGatewayRouteSpec_bind, prefixPath, matchPrefix, rewriteBoundPrefix,
    rewriteBoundPath.
  cbn [httpMatch httpRouteTarget routeType httpRewrite chain].
  now rewrite H.
Qed.

(** X13: each of the ten factory methods of [GrpcMetadataMatch] binds the
    given metadata name and exactly one matcher variant; a negated factory
    binds the same matcher as its positive twin, with [invert] set where the
    twin clears it; and the five pairs use the five variants exact, prefix,
    suffix, regex and range, in this order. *)
Theorem metadata_factories
  (name value0 prefix0 suffix regex : string) (start end_ : number) (scope : Construct) :
  let bound m := metadataMatch (GrpcMetadataMatch_bind m scope) in
  let pairs := metadataFactoryPairs name value0 prefix0 suffix regex start end_ in
  Forall
    (fun pair =>
       metadataName (bound (fst pair)) = name
       /\ metadataName (bound (snd pair)) = name
       /\ metadataInvert (bound (fst pair)) = false
       /\ metadataInvert (bound (snd pair)) = true
       /\ metadataMatchProperty (bound (snd pair)) = metadataMatchProperty (bound (fst pair))
       /\ metadataVariants (metadataMatchProperty (bound (fst pair))) = 1)
    pairs
  /\ map (fun pair => metadataVariantFlags (metadataMatchProperty (bound (fst pair)))) pairs
     = [ [true; false; false; false; false];
         [false; true; false; false; false];
         [false; false; true; false; false];
         [false; false; false; true; false];
         [false; false; false; false; true] ].
Proof.
  cbv zeta. split; [|reflexivity].
  unfold metadataFactoryPairs. repeat constructor.
Qed.

(** X16: the gRPC entry points converge.  The host name, metadata and
    service name entry points bind to the same match when they carry the same
    host name, metadata and service name. *)
Theorem grpc_entry_points_converge (scope : Construct)
  (hn : GatewayRouteHostname) (ms : list GrpcMetadataMatch) (serviceName : string) :
  let viaHostname :=
    GrpcGatewayRouteMatch_bind
      (GrpcGatewayRouteMatch_hostname hn
         (Some {| grpcHostnameOptMetadata := Some ms;
                  grpcHostnameOptServiceName := Some serviceName |})) scope in
  let viaMetadata :=
    GrpcGatewayRouteMatch_bind
      (GrpcGatewayRouteMatch_metadata ms
         (Some {| grpcMetadataOptHostname := Some hn;
                  grpcMetadataOptServiceName := Some serviceName |})) scope in
  let viaServiceName :=
    GrpcGatewayRouteMatch_bind
      (GrpcGatewayRouteMatch_serviceName serviceName
         (Some {| grpcServiceNameOptHostname := Some hn;
                  grpcServiceNameOptMetadata := Some ms |})) scope in
  viaHostname = viaMetadata
  /\ viaMetadata = viaServiceName
  /\ grpcCriteria (grpcRequestMatch viaServiceName) = 3
  /\ option_map (@length _) (grpcMetadata (grpcRequestMatch viaServiceName))
     = Some (length ms).
Proof.
  cbv zeta. repeat split. cbn. unfold bindMetadata. now rewrite length_map.
Qed.

End Builders.

Section TrustProperties.
Context {env : Environment}.

(** X14: [TlsValidationTrust.bind] throws only for an ACM trust without
    certificate authorities; whenever it returns, the trust property
    populates exactly one of [acm], [file] and [sds], the one of the factory
    that made the trust. *)
Theorem trust_bind_populates_its_kind (trust : TlsValidationTrust) (scope : Construct) :
  ((exists message, TlsValidationTrust_bind trust scope = Throw message)
   <-> trust = TlsValidationAcmTrust [])
  /\ (forall config,
         TlsValidationTrust_bind trust scope = Return config ->
         populatedTrusts (tlsValidationTrust config) = [trustKind trust]).
Proof.
  destruct trust as [[|authority rest]|chain0|name]; cbn; split;
    try (split; [intros [message H]; discriminate | discriminate]);
    try (split; [reflexivity | intros _; now eexists]);
    intros config [= <-]; reflexivity.
Qed.

(** X15: when [bind] of an ACM trust returns, the list of certificate
    authority ARNs is not empty, is as long as the list of authorities, and
    holds at every position the ARN of the authority at that position. *)
Theorem acm_trust_arns (props : TlsValidationAcmTrustOptions) (scope : Construct)
  (config : TlsValidationTrustConfig) :
  TlsValidationTrust_bind (TlsValidationTrust_acm props) scope = Return config ->
  exists acmTrust,
    acm (tlsValidationTrust config) = Some acmTrust
    /\ certificateAuthorityArns acmTrust <> []
    /\ length (certificateAuthorityArns acmTrust) = length (certificateAuthorities props)
    /\ forall i authority,
        nth_error (certificateAuthorities props) i = Some authority ->
        nth_error (certificateAuthorityArns acmTrust) i
        = Some (certificateAuthorityArn authority).
Proof.
  unfold TlsValidationTrust_acm. cbn [TlsValidationTrust_bind].
  destruct (certificateAuthorities props) as [|authority rest] eqn:Hc;
    cbn [length Nat.eqb]; [discriminate|].
  intros [= <-]. eexists. split; [reflexivity|]. cbn [certificateAuthorityArns].
  split; [discriminate|].
  split; [exact (length_map _ (authority :: rest))|].
  intros i a Hi. exact (map_nth_error _ i (authority :: rest) Hi).
Qed.

End TrustProperties.

(** * The further properties on concrete inputs *)

(** The HTTP2 route compiled from the exact path match "/health" with the
    path rewrite "/check". *)
Lemma compiled_route_with_match_run :
  exists config http,
    HttpGatewayRouteSpec_bind
      (pathMatchSpec (Some (HttpGatewayRouteRewrite_path "/check" None)) HTTP2 sampleTarget)
      sampleScope
    = Return config
    /\ httpOutput config = Some http
    /\ path (httpRouteMatch http) = Some {| pathExact := Some "/health"; pathRegex := None |}
    /\ targetVirtualServiceName (virtualService (httpTarget (httpRouteAction http)))
       = "orders.mesh.local".
Proof.
  do 2 eexists. split; [reflexivity|]. split; [reflexivity|].
  rewrite (compiled_route_with_match
             (pathMatchSpec (Some (HttpGatewayRouteRewrite_path "/check" None)) HTTP2 sampleTarget)
             sampleScope
             (HttpGatewayRouteMatch_path (HttpPathMatch_matchingExactly "/health")
                noPathMatchOptions)
             _ _ eq_refl eq_refl eq_refl).
  split; reflexivity.
Defined.

(** The HTTP route compiled without match and without rewrite. *)
Lemma compiled_route_without_match_run :
  exists config http,
    HttpGatewayRouteSpec_bind
      (new_HttpGatewayRouteSpec
         {| httpOptMatch := None; httpOptRouteTarget := sampleTarget; httpOptRewrite := None |}
         HTTP)
      sampleScope
    = Return config
    /\ httpOutput config = Some http
    /\ prefix (httpRouteMatch http) = Some "/"
    /\ httpCriteria (httpRouteMatch http) = 1.
Proof.
  do 2 eexists. split; [reflexivity|]. split; [reflexivity|].
  destruct (compiled_route_without_match
              (new_HttpGatewayRouteSpec
                 {| httpOptMatch := None; httpOptRouteTarget := sampleTarget;
                    httpOptRewrite := None |} HTTP)
              sampleScope _ _ eq_refl eq_refl eq_refl) as [Hm Hc].
  split; [now rewrite Hm | exact Hc].
Defined.

(** The three conditions hold for the prefix match "/api" without rewrite,
    and fail for the prefix match "api". *)
Lemma bind_succeeds_iff_run :
  (exists config,
      HttpGatewayRouteSpec_bind
        (new_HttpGatewayRouteSpec
           {| httpOptMatch := Some (HttpGatewayRouteMatch_prefix "/api" None);
              httpOptRouteTarget := sampleTarget; httpOptRewrite := None |} HTTP)
        sampleScope
      = Return config)
  /\ ~ (exists config,
           HttpGatewayRouteSpec_bind (prefixMatchPathRewriteSpec "api" HTTP sampleTarget)
             sampleScope
           = Return config).
Proof.
  split.
  - apply (proj2 (bind_succeeds_iff _ sampleScope)). split; [|split].
    + intros p [= <-]. now right.
    + intros H. now elim H.
    + intros H. now elim H.
  - intros H. apply (proj1 (bind_succeeds_iff _ sampleScope)) in H.
    destruct H as (H & _ & _). destruct (H "api" eq_refl); discriminate.
Defined.

(** The prefix match "/api" with the custom prefix rewrite compiles. *)
Lemma prefix_match_accepts_prefix_rewrite_run :
  exists config rewrite,
    HttpGatewayRouteSpec_bind
      (new_HttpGatewayRouteSpec
         {| httpOptMatch := Some (HttpGatewayRouteMatch_prefix "/api" None);
            httpOptRouteTarget := sampleTarget;
            httpOptRewrite := Some (HttpGatewayRouteRewrite_customPrefix ENABLED None) |}
         HTTP)
      sampleScope
    = Return config
    /\ actionRewritePrefix rewrite <> None
    /\ actionRewritePath rewrite = None.
Proof.
  destruct (prefix_match_accepts_prefix_rewrite
              (new_HttpGatewayRouteSpec
                 {| httpOptMatch := Some (HttpGatewayRouteMatch_prefix "/api" None);
                    httpOptRouteTarget := sampleTarget;
                    httpOptRewrite :=
                      Some (HttpGatewayRouteRewrite_customPrefix ENABLED None) |}
                 HTTP)
              sampleScope (HttpGatewayRouteMatch_prefix "/api" None) "/api"
              (HttpGatewayRouteRewrite_customPrefix ENABLED None)
              eq_refl eq_refl eq_refl eq_refl (prefix_action_custom ENABLED None))
    as (config & rewrite & Hb & _ & _ & Hp & Hq).
  exists config, rewrite. auto.
Defined.

(** The exact path match "/health" with the path rewrite "/check" compiles. *)
Lemma prefixless_match_accepts_path_rewrite_run :
  exists config rewrite,
    HttpGatewayRouteSpec_bind
      (pathMatchSpec (Some (HttpGatewayRouteRewrite_path "/check" None)) HTTP sampleTarget)
      sampleScope
    = Return config
    /\ actionRewritePath rewrite <> None
    /\ actionRewritePrefix rewrite = None.
Proof.
  destruct (prefixless_match_accepts_path_rewrite
              (pathMatchSpec (Some (HttpGatewayRouteRewrite_path "/check" None)) HTTP
                 sampleTarget)
              sampleScope
              (HttpGatewayRouteMatch_path (HttpPathMatch_matchingExactly "/health")
                 noPathMatchOptions)
              (HttpGatewayRouteRewrite_path "/check" None)
              eq_refl eq_refl eq_refl (path_action "/check" None))
    as (config & rewrite & Hb & _ & _ & Hp & Hq).
  exists config, rewrite. auto.
Defined.

(** The empty prefix match with a path rewrite compiles. *)
Lemma empty_prefix_counts_as_no_prefix_run :
  exists config,
    HttpGatewayRouteSpec_bind (prefixMatchPathRewriteSpec "" HTTP sampleTarget) sampleScope
    = Return config.
Proof.
  apply (proj1 (empty_prefix_counts_as_no_prefix
                  (prefixMatchPathRewriteSpec "" HTTP sampleTarget) sampleScope eq_refl)).
  reflexivity.
Defined.

(** The rewrite compiled from a path rewrite has no prefix part. *)
Lemma rewrite_path_and_prefix_never_both_run :
  exists config http rewrite,
    HttpGatewayRouteSpec_bind
      (pathMatchSpec (Some (HttpGatewayRouteRewrite_path "/check" None)) HTTP sampleTarget)
      sampleScope
    = Return config
    /\ httpOutput config = Some http
    /\ httpActionRewrite (httpRouteAction http) = Some rewrite
    /\ (actionRewritePath rewrite = None \/ actionRewritePrefix rewrite = None)
    /\ actionRewriteHostname rewrite <> None.
Proof.
  do 3 eexists. split; [reflexivity|]. split; [reflexivity|]. split; [reflexivity|].
  eapply (proj2 (rewrite_path_and_prefix_never_both sampleScope)
            (pathMatchSpec (Some (HttpGatewayRouteRewrite_path "/check" None)) HTTP
               sampleTarget));
    reflexivity.
Defined.

(** The method entry point with the prefix "/api" and the prefix entry point
    with the method compile to the same result. *)
Lemma bind_depends_on_bound_match_run :
  HttpGatewayRouteSpec_bind
    {| httpMatch :=
         Some (HttpGatewayRouteMatch_method GET
                 {| methodOptHeaders := None; methodOptHostname := None;
                    methodOptQueryParameters := None;
                    methodOptPrefixOrPath :=
                      Some (HttpGatewayRoutePathOrPrefixMatch_prefix "/api") |});
       httpRouteTarget := sampleTarget; routeType := HTTP; httpRewrite := None |}
    sampleScope
  = HttpGatewayRouteSpec_bind
      {| httpMatch :=
           Some (HttpGatewayRouteMatch_prefix "/api"
                   (Some {| prefixOptHeaders := None; prefixOptHostname := None;
                            prefixOptMethod := Some GET;
                            prefixOptQueryParameters := None |}));
         httpRouteTarget := sampleTarget; routeType := HTTP; httpRewrite := None |}
      sampleScope.
Proof.
  apply (bind_depends_on_bound_match
           (HttpGatewayRouteMatch_method GET
              {| methodOptHeaders := None; methodOptHostname := None;
                 methodOptQueryParameters := None;
                 methodOptPrefixOrPath :=
                   Some (HttpGatewayRoutePathOrPrefixMatch_prefix "/api") |})
           (HttpGatewayRouteMatch_prefix "/api"
              (Some {| prefixOptHeaders := None; prefixOptHostname := None;
                       prefixOptMethod := Some GET;
                       prefixOptQueryParameters := None |}))
           sampleTarget HTTP None sampleScope).
  reflexivity.
Defined.

(** A file trust populates [file] alone; an ACM trust without authorities
    throws. *)
Lemma trust_bind_populates_its_kind_run :
  (exists config,
      TlsValidationTrust_bind
        (TlsValidationTrust_file {| certificateChain := "/certs/chain.pem" |}) sampleScope
      = Return config
      /\ populatedTrusts (tlsValidationTrust config) = [FileTrust])
  /\ exists message,
      TlsValidationTrust_bind (TlsValidationAcmTrust []) sampleScope = Throw message.
Proof.
  split.
  - eexists. split; [reflexivity|].
    apply (proj2 (trust_bind_populates_its_kind
                    (TlsValidationTrust_file {| certificateChain := "/certs/chain.pem" |})
                    sampleScope)).
    reflexivity.
  - apply (proj1 (trust_bind_populates_its_kind (TlsValidationAcmTrust []) sampleScope)).
    reflexivity.
Defined.

(** Two authorities bind to their two ARNs. *)
Lemma acm_trust_arns_run :
  exists config acmTrust,
    TlsValidationTrust_bind
      (TlsValidationTrust_acm {| certificateAuthorities := [sampleAuthority; sampleAuthority] |})
      sampleScope
    = Return config
    /\ acm (tlsValidationTrust config) = Some acmTrust
    /\ length (certificateAuthorityArns acmTrust) = 2.
Proof.
  eexists.
  destruct (acm_trust_arns
              {| certificateAuthorities := [sampleAuthority; sampleAuthority] |}
              sampleScope _ eq_refl) as (acmTrust & Ha & _ & Hl & _).
  exists acmTrust. split; [reflexivity|]. split; [exact Ha | exact Hl].
Defined.
